(** * Keyboard teleoperation of the TIAGo arm, torso and gripper

    A shallow embedding of [src/arm_teleop.py] (class [ArmTeleop]) and the
    properties of its key handler, integrator tick, goal construction and
    control loop.

    - Joint positions are Python floats, i.e. IEEE-754 binary64 numbers:
      they are modelled by Rocq's primitive floats, whose addition is the
      same operation.
    - Clock readings ([self.get_clock().now()]) are rclpy [Time] values, which
      carry an integer number of nanoseconds: they are modelled by [Z].
    - The node object is a record; methods are computations in a small
      state-and-exception monad over that record.
    - The collaborators (curses window, action clients, logger) are modelled
      by the trace of calls the node makes on them. *)

From Stdlib Require Import ZArith Lia Bool Ascii String Floats.
From stdpp Require Import base list.

Set Warnings "-inexact-float".
Local Open Scope string_scope.
Local Open Scope list_scope.
Local Open Scope Z_scope.

(** ** Python values and containers *)

(** The values [_selected_joint] can hold: [None], an [int], or a [str]. *)
Inductive pyobj : Type :=
  | PyNone
  | PyInt (i : Z)
  | PyStr (s : string).

Definition is_None (v : pyobj) : bool :=
  match v with PyNone => true | _ => false end.

(** [v == s] for a string literal [s]. *)
Definition py_eq_str (v : pyobj) (s : string) : bool :=
  match v with PyStr s' => String.eqb s' s | _ => false end.

(** [ord(c)] *)
Definition ord (c : ascii) : Z := Z.of_N (N_of_ascii c).

(** A [dict] with integer keys: an association list in insertion order
    (iteration order of a Python dict), one entry per key. *)
Definition dict (V : Type) : Type := list (Z * V).

Fixpoint dict_get {V} (d : dict V) (k : Z) : option V :=
  match d with
  | [] => None
  | (k', v) :: d' => if k' =? k then Some v else dict_get d' k
  end.

(** [k in d] *)
Definition dict_contains {V} (d : dict V) (k : Z) : bool :=
  match dict_get d k with Some _ => true | None => false end.

(** [d[k] = v]: an existing key keeps its place, a new key goes last. *)
Fixpoint dict_set {V} (d : dict V) (k : Z) (v : V) : dict V :=
  match d with
  | [] => [(k, v)]
  | (k', v') :: d' =>
      if k' =? k then (k', v) :: d' else (k', v') :: dict_set d' k v
  end.

(** Position of index [i] in a list of length [len], as Python resolves it:
    negative indices count from the end, anything else is out of range. *)
Definition py_index (len : nat) (i : Z) : option nat :=
  if (0 <=? i) && (i <? Z.of_nat len) then Some (Z.to_nat i)
  else if (- Z.of_nat len <=? i) && (i <? 0) then Some (Z.to_nat (Z.of_nat len + i))
  else None.

(** ** Messages and collaborators *)

(** [builtin_interfaces.msg.Duration] *)
Record Duration : Type := { sec : Z; nanosec : Z }.

(** [trajectory_msgs.msg.JointTrajectoryPoint], the fields the node sets. *)
Record JointTrajectoryPoint : Type := {
  positions : list float;
  time_from_start : Duration
}.

(** [FollowJointTrajectory.Goal], reduced to its [trajectory] field. *)
Record Goal : Type := {
  joint_names : list string;
  points : list JointTrajectoryPoint
}.

(** The three action clients of the node. *)
Inductive controller : Type :=
  | arm_controller      (* /arm_controller/follow_joint_trajectory *)
  | torso_controller    (* /torso_controller/follow_joint_trajectory *)
  | gripper_controller. (* /gripper_controller/follow_joint_trajectory *)

(** The texts the node writes to the window.  Their rendering (number
    formatting, capitalisation) is left to the display. *)
Inductive message : Type :=
  | SelectedJointNumber (n : Z)            (* 'Selected Joint: {n}' *)
  | SelectedJointName (s : string)         (* 'Selected Joint: {s.capitalize()}' *)
  | JointPosition (n : Z) (p : float)      (* 'Joint {n} Position: {p:.2f}' *)
  | TorsoPosition (p : float)              (* 'Torso Position: {p:.2f}' *)
  | GripperPosition (p : float)            (* 'Gripper Position: {p:.2f}' *)
  | ReselectJoint                          (* 'Reselect Joint' *)
  | Instructions.                          (* 'Use keys 1-9 to select joint, ...' *)

(** Calls received by the [TextWindow]. *)
Inductive screen_call : Type :=
  | ScreenClear
  | ScreenWriteLine (lineno : Z) (m : message)
  | ScreenRefresh.

(** Lines written by the node's logger. *)
Inductive log_line : Type :=
  | LogGoalRejected            (* 'Goal rejected' *)
  | LogGoalAccepted            (* 'Goal accepted' *)
  | LogResult (error_code : Z) (* 'Result: {error_code}' *).

(** What a completed send-goal future yields: the goal handle. *)
Record ClientGoalHandle : Type := {
  goal_id : nat;
  accepted : bool
}.

(** Exceptions the modelled code can raise. *)
Inductive exn : Type :=
  | KeyboardInterrupt
  | IndexError
  | KeyError
  | ValueError
  | AttributeError.

(** ** The node *)

Record ArmTeleop : Type := mkArmTeleop {
  (* attributes set by __init__ *)
  _hz : Z;
  _joint_positions_arm : list float;
  _joint_position_torso : float;
  _joint_position_gripper : float;
  _selected_joint : pyobj;
  _running : bool;
  _goal_sent : bool;
  _last_pressed : dict Z;
  (* attributes set on dispatch: the index of the submission they refer to *)
  _send_goal_future : option nat;
  _get_result_future : option nat;
  (* traces of the calls made on the collaborators *)
  window : list screen_call;             (* self._interface *)
  sent_goals : list (controller * Goal); (* send_goal_async, oldest first *)
  result_requests : list nat;            (* goal_handle.get_result_async() *)
  logger : list log_line;                (* self.get_logger().info *)
  sigint : nat                           (* os.kill(os.getpid(), SIGINT) *)
}.

(** [TextWindow.__init__(stdscr, lines=10)] *)
Definition _num_lines : Z := 10.

(** [self._pressed_duration = 0.4], and the rclpy duration built from it:
    [rclpyDuration(seconds=s)] holds [int(s * 10**9)] nanoseconds. *)
Definition _pressed_duration : float := 0.4%float.
Definition pressed_duration_ns : Z := 400000000.

(** [ArmTeleop.__init__] *)
Definition init : ArmTeleop := {|
  _hz := 10;
  _joint_positions_arm :=
    [0.2; -1.34; -0.2; 1.94; -1.57; 1.37; 0.0]%float;
  _joint_position_torso := 0.15%float;
  _joint_position_gripper := 0.0%float;
  _selected_joint := PyNone;
  _running := true;
  _goal_sent := false;
  _last_pressed := [];
  _send_goal_future := None;
  _get_result_future := None;
  window := [];
  sent_goals := [];
  result_requests := [];
  logger := [];
  sigint := 0%nat
|}.

Definition movement_bindings : dict float := [
  (ord "a", -0.01);
  (ord "d", 0.01);
  (ord "w", 0.001);
  (ord "s", -0.001);
  (ord "o", -1.57);
  (ord "p", 1.57)
]%float.

Definition joint_bindings : dict pyobj := [
  (ord "1", PyInt 0);
  (ord "2", PyInt 1);
  (ord "3", PyInt 2);
  (ord "4", PyInt 3);
  (ord "5", PyInt 4);
  (ord "6", PyInt 5);
  (ord "7", PyInt 6);
  (ord "8", PyStr "torso");
  (ord "9", PyStr "gripper")
].

(** *** Attribute assignment *)

Definition set_joint_positions_arm (v : list float) (s : ArmTeleop) : ArmTeleop :=
  mkArmTeleop (_hz s) v (_joint_position_torso s) (_joint_position_gripper s)
    (_selected_joint s) (_running s) (_goal_sent s) (_last_pressed s)
    (_send_goal_future s) (_get_result_future s)
    (window s) (sent_goals s) (result_requests s) (logger s) (sigint s).

Definition set_joint_position_torso (v : float) (s : ArmTeleop) : ArmTeleop :=
  mkArmTeleop (_hz s) (_joint_positions_arm s) v (_joint_position_gripper s)
    (_selected_joint s) (_running s) (_goal_sent s) (_last_pressed s)
    (_send_goal_future s) (_get_result_future s)
    (window s) (sent_goals s) (result_requests s) (logger s) (sigint s).

Definition set_joint_position_gripper (v : float) (s : ArmTeleop) : ArmTeleop :=
  mkArmTeleop (_hz s) (_joint_positions_arm s) (_joint_position_torso s) v
    (_selected_joint s) (_running s) (_goal_sent s) (_last_pressed s)
    (_send_goal_future s) (_get_result_future s)
    (window s) (sent_goals s) (result_requests s) (logger s) (sigint s).

Definition set_selected_joint (v : pyobj) (s : ArmTeleop) : ArmTeleop :=
  mkArmTeleop (_hz s) (_joint_positions_arm s) (_joint_position_torso s)
    (_joint_position_gripper s) v (_running s) (_goal_sent s) (_last_pressed s)
    (_send_goal_future s) (_get_result_future s)
    (window s) (sent_goals s) (result_requests s) (logger s) (sigint s).

Definition set_running (v : bool) (s : ArmTeleop) : ArmTeleop :=
  mkArmTeleop (_hz s) (_joint_positions_arm s) (_joint_position_torso s)
    (_joint_position_gripper s) (_selected_joint s) v (_goal_sent s)
    (_last_pressed s) (_send_goal_future s) (_get_result_future s)
    (window s) (sent_goals s) (result_requests s) (logger s) (sigint s).

Definition set_goal_sent (v : bool) (s : ArmTeleop) : ArmTeleop :=
  mkArmTeleop (_hz s) (_joint_positions_arm s) (_joint_position_torso s)
    (_joint_position_gripper s) (_selected_joint s) (_running s) v
    (_last_pressed s) (_send_goal_future s) (_get_result_future s)
    (window s) (sent_goals s) (result_requests s) (logger s) (sigint s).

Definition set_last_pressed (v : dict Z) (s : ArmTeleop) : ArmTeleop :=
  mkArmTeleop (_hz s) (_joint_positions_arm s) (_joint_position_torso s)
    (_joint_position_gripper s) (_selected_joint s) (_running s) (_goal_sent s)
    v (_send_goal_future s) (_get_result_future s)
    (window s) (sent_goals s) (result_requests s) (logger s) (sigint s).

Definition set_send_goal_future (v : option nat) (s : ArmTeleop) : ArmTeleop :=
  mkArmTeleop (_hz s) (_joint_positions_arm s) (_joint_position_torso s)
    (_joint_position_gripper s) (_selected_joint s) (_running s) (_goal_sent s)
    (_last_pressed s) v (_get_result_future s)
    (window s) (sent_goals s) (result_requests s) (logger s) (sigint s).

Definition set_get_result_future (v : option nat) (s : ArmTeleop) : ArmTeleop :=
  mkArmTeleop (_hz s) (_joint_positions_arm s) (_joint_position_torso s)
    (_joint_position_gripper s) (_selected_joint s) (_running s) (_goal_sent s)
    (_last_pressed s) (_send_goal_future s) v
    (window s) (sent_goals s) (result_requests s) (logger s) (sigint s).

Definition set_window (v : list screen_call) (s : ArmTeleop) : ArmTeleop :=
  mkArmTeleop (_hz s) (_joint_positions_arm s) (_joint_position_torso s)
    (_joint_position_gripper s) (_selected_joint s) (_running s) (_goal_sent s)
    (_last_pressed s) (_send_goal_future s) (_get_result_future s)
    v (sent_goals s) (result_requests s) (logger s) (sigint s).

Definition set_sent_goals (v : list (controller * Goal)) (s : ArmTeleop) : ArmTeleop :=
  mkArmTeleop (_hz s) (_joint_positions_arm s) (_joint_position_torso s)
    (_joint_position_gripper s) (_selected_joint s) (_running s) (_goal_sent s)
    (_last_pressed s) (_send_goal_future s) (_get_result_future s)
    (window s) v (result_requests s) (logger s) (sigint s).

Definition set_result_requests (v : list nat) (s : ArmTeleop) : ArmTeleop :=
  mkArmTeleop (_hz s) (_joint_positions_arm s) (_joint_position_torso s)
    (_joint_position_gripper s) (_selected_joint s) (_running s) (_goal_sent s)
    (_last_pressed s) (_send_goal_future s) (_get_result_future s)
    (window s) (sent_goals s) v (logger s) (sigint s).

Definition set_logger (v : list log_line) (s : ArmTeleop) : ArmTeleop :=
  mkArmTeleop (_hz s) (_joint_positions_arm s) (_joint_position_torso s)
    (_joint_position_gripper s) (_selected_joint s) (_running s) (_goal_sent s)
    (_last_pressed s) (_send_goal_future s) (_get_result_future s)
    (window s) (sent_goals s) (result_requests s) v (sigint s).

Definition set_sigint (v : nat) (s : ArmTeleop) : ArmTeleop :=
  mkArmTeleop (_hz s) (_joint_positions_arm s) (_joint_position_torso s)
    (_joint_position_gripper s) (_selected_joint s) (_running s) (_goal_sent s)
    (_last_pressed s) (_send_goal_future s) (_get_result_future s)
    (window s) (sent_goals s) (result_requests s) (logger s) v.

(** ** Methods as state-and-exception computations *)

Inductive outcome (A : Type) : Type :=
  | Return (a : A)
  | Raise (e : exn).
Arguments Return {A} a.
Arguments Raise {A} e.

(** A method body: from the node before the call to how the call ends and
    the node at that point (also when an exception leaves the method). *)
Definition M (A : Type) : Type := ArmTeleop -> outcome A * ArmTeleop.

Definition ret {A} (a : A) : M A := fun s => (Return a, s).
Definition raise {A} (e : exn) : M A := fun s => (Raise e, s).
Definition bind {A B} (m : M A) (f : A -> M B) : M B :=
  fun s =>
    match m s with
    | (Return a, s') => f a s'
    | (Raise e, s') => (Raise e, s')
    end.
Definition get : M ArmTeleop := fun s => (Return s, s).
Definition modify (f : ArmTeleop -> ArmTeleop) : M unit := fun s => (Return tt, f s).

#[global] Instance M_ret : MRet M := @ret.
#[global] Instance M_bind : MBind M := fun A B f m => bind m f.

(** [for x in xs: body(x)] *)
Fixpoint for_in {A} (xs : list A) (body : A -> M unit) : M unit :=
  match xs with
  | [] => ret tt
  | x :: xs' => body x ;; for_in xs' body
  end.

(** *** Collaborator calls *)

(** [TextWindow.write_line]: the line number is checked, the text is drawn. *)
Definition write_line (lineno : Z) (m : message) : M unit :=
  if (lineno <? 0) || (lineno >=? _num_lines) then raise ValueError
  else modify (fun s => set_window (window s ++ [ScreenWriteLine lineno m]) s).

(** [TextWindow.clear] and [TextWindow.refresh] *)
Definition interface_clear : M unit :=
  modify (fun s => set_window (window s ++ [ScreenClear]) s).
Definition interface_refresh : M unit :=
  modify (fun s => set_window (window s ++ [ScreenRefresh]) s).

(** [os.kill(os.getpid(), signal.SIGINT)]: the process interrupts itself.
    Python's handler for SIGINT raises [KeyboardInterrupt] in the main thread,
    which is the thread running the loop; [main] catches it
    ([except KeyboardInterrupt: pass]). *)
Definition os_kill_SIGINT : M unit :=
  modify (fun s => set_sigint (S (sigint s)) s);;
  raise KeyboardInterrupt.

(** [client.wait_for_server()] followed by [client.send_goal_async(goal_msg)]
    and the assignment of the returned future to [self._send_goal_future].
    The wait is taken to return. *)
Definition send_goal_async (client : controller) (goal_msg : Goal) : M unit :=
  modify (fun s =>
    set_send_goal_future (Some (length (sent_goals s)))
      (set_sent_goals (sent_goals s ++ [(client, goal_msg)]) s)).

(** [self.get_logger().info(line)] *)
Definition logger_info (line : log_line) : M unit :=
  modify (fun s => set_logger (logger s ++ [line]) s).

(** [l[i]] on the arm position list *)
Definition list_getitem (l : list float) (i : Z) : M float :=
  match py_index (length l) i with
  | Some n =>
      match l !! n with
      | Some x => ret x
      | None => raise IndexError
      end
  | None => raise IndexError
  end.

(** [self.movement_bindings[k]] *)
Definition movement_getitem (k : Z) : M float :=
  match dict_get movement_bindings k with
  | Some d => ret d
  | None => raise KeyError
  end.

(** *** [_key_pressed]

    [now] is the reading [self.get_clock().now()] returns when the method
    asks for it (it does so in the movement branch only). *)
Definition _key_pressed (keycode : Z) (now : Z) : M unit :=
  self ← get;
  if keycode =? ord "q" then
    modify (set_running false);;
    os_kill_SIGINT
  else
    match dict_get joint_bindings keycode with
    | Some joint =>
        (* keycode in self.joint_bindings *)
        modify (set_selected_joint joint);;
        match joint with
        | PyInt i => write_line 1 (SelectedJointNumber (i + 1))
        | PyStr s => write_line 1 (SelectedJointName s)
        | PyNone => raise AttributeError
        end
    | None =>
        if dict_contains movement_bindings keycode
           && negb (is_None (_selected_joint self))
        then
          modify (fun s => set_last_pressed (dict_set (_last_pressed s) keycode now) s);;
          match _selected_joint self with
          | PyInt i =>
              p ← list_getitem (_joint_positions_arm self) i;
              write_line 2 (JointPosition (i + 1) p)
          | v =>
              if py_eq_str v "torso" then
                write_line 2 (TorsoPosition (_joint_position_torso self))
              else if py_eq_str v "gripper" then
                write_line 2 (GripperPosition (_joint_position_gripper self))
              else mret tt
          end
        else if keycode =? ord "r" then
          modify (set_selected_joint PyNone);;
          write_line 1 ReselectJoint
        else mret tt
    end.

(** *** [_set_velocity] *)

(** The list [keys] built by the first loop: the keys whose press is less
    than [_pressed_duration] old, in the dict's order. *)
Fixpoint pressed_keys (now : Z) (items : dict Z) : list Z :=
  match items with
  | [] => []
  | (keycode, press_time) :: rest =>
      if now - press_time <? pressed_duration_ns
      then keycode :: pressed_keys now rest
      else pressed_keys now rest
  end.

(** The body of [for k in keys].  In [x[i] += e] Python reads [x[i]] before
    it evaluates [e]. *)
Definition add_movement (k : Z) : M unit :=
  self ← get;
  match _selected_joint self with
  | PyInt i =>
      match py_index (length (_joint_positions_arm self)) i with
      | None => raise IndexError
      | Some n =>
          match _joint_positions_arm self !! n with
          | None => raise IndexError
          | Some old =>
              d ← movement_getitem k;
              modify (set_joint_positions_arm
                        (<[n := (old + d)%float]> (_joint_positions_arm self)))
          end
      end
  | v =>
      if py_eq_str v "torso" then
        d ← movement_getitem k;
        modify (set_joint_position_torso (_joint_position_torso self + d)%float)
      else if py_eq_str v "gripper" then
        d ← movement_getitem k;
        modify (set_joint_position_gripper (_joint_position_gripper self + d)%float)
      else mret tt
  end;;
  modify (set_goal_sent true).

Definition _set_velocity (now : Z) : M unit :=
  self ← get;
  let keys := pressed_keys now (_last_pressed self) in
  match keys with
  | [] => mret tt
  | _ :: _ =>
      for_in keys add_movement;;
      modify (set_last_pressed [])
  end.

(** *** Goal construction and dispatch *)

Definition one_second : Duration := {| sec := 1; nanosec := 0 |}.

Definition _send_goal_arm : M unit :=
  self ← get;
  let point := {| positions := _joint_positions_arm self;
                  time_from_start := one_second |} in
  let goal_msg := {|
    joint_names := ["arm_1_joint"; "arm_2_joint"; "arm_3_joint";
                    "arm_4_joint"; "arm_5_joint"; "arm_6_joint"; "arm_7_joint"];
    points := [point] |} in
  send_goal_async arm_controller goal_msg.

Definition _send_goal_torso : M unit :=
  self ← get;
  let point := {| positions := [_joint_position_torso self];
                  time_from_start := one_second |} in
  let goal_msg := {|
    joint_names := ["torso_lift_joint"];
    points := [point] |} in
  send_goal_async torso_controller goal_msg.

Definition _send_goal_gripper : M unit :=
  self ← get;
  let point := {| positions := [_joint_position_gripper self;
                                _joint_position_gripper self];
                  time_from_start := one_second |} in
  let goal_msg := {|
    joint_names := ["gripper_right_finger_joint"; "gripper_left_finger_joint"];
    points := [point] |} in
  send_goal_async gripper_controller goal_msg.

Definition _publish : M unit :=
  interface_clear;;
  write_line 0 Instructions;;
  interface_refresh;;
  self ← get;
  match _selected_joint self with
  | PyInt _ => _send_goal_arm
  | v =>
      if py_eq_str v "torso" then _send_goal_torso
      else if py_eq_str v "gripper" then _send_goal_gripper
      else mret tt
  end.

(** *** Callbacks of the action client *)

(** [goal_response_callback(future)], with [goal_handle = future.result()]. *)
Definition goal_response_callback (goal_handle : ClientGoalHandle) : M unit :=
  if negb (accepted goal_handle) then
    logger_info LogGoalRejected
  else
    logger_info LogGoalAccepted;;
    modify (fun s =>
      set_get_result_future (Some (goal_id goal_handle))
        (set_result_requests (result_requests s ++ [goal_id goal_handle]) s)).

(** [get_result_callback(future)], with
    [error_code = future.result().result.error_code]. *)
Definition get_result_callback (error_code : Z) : M unit :=
  logger_info (LogResult error_code).

(** *** The control loop *)

(** What the environment supplies to one iteration of [run]: the key
    [read_key] returns, and the clock readings handed out in [_key_pressed]
    and in [_set_velocity]. *)
Record tick_input : Type := {
  read_key : option Z;
  clock_at_press : Z;
  clock_at_tick : Z
}.

(** The first two statements of the loop body: poll one key and, if there
    is one, handle it. *)
Definition poll_key (e : tick_input) : M unit :=
  match read_key e with
  | Some keycode => _key_pressed keycode (clock_at_press e)
  | None => mret tt
  end.

(** The body of [while self._running] in [run]. *)
Definition run_iteration (e : tick_input) : M unit :=
  poll_key e;;
  _set_velocity (clock_at_tick e);;
  self ← get;
  (if _goal_sent self then
     _publish;;
     modify (set_goal_sent false)
   else mret tt)
  (* time.sleep(1.0 / self._hz) *).

(** [run], over the inputs of its successive iterations.  The result is [true]
    when the loop has ended ([self._running] false), [false] when the given
    inputs are used up and the loop would go on. *)
Fixpoint run (env : list tick_input) : M bool :=
  self ← get;
  if negb (_running self) then mret true
  else
    match env with
    | [] => mret false
    | e :: env' => run_iteration e;; run env'
    end.

(** ** Vocabulary of the properties *)

(** The three position attributes together. *)
Definition position_state (s : ArmTeleop) : list float * float * float :=
  (_joint_positions_arm s, _joint_position_torso s, _joint_position_gripper s).

(** The selections the binding table can produce, and [None]. *)
Definition selection_ok (v : pyobj) : bool :=
  match v with
  | PyNone => true
  | PyInt i => (0 <=? i) && (i <=? 6)
  | PyStr s => String.eqb s "torso" || String.eqb s "gripper"
  end.

(** A joint group is selected. *)
Definition group_selected (v : pyobj) : bool :=
  selection_ok v && negb (is_None v).

(** Every pending press is the press of a movement key. *)
Definition movement_keys_only (d : dict Z) : bool :=
  forallb (fun entry => dict_contains movement_bindings (fst entry)) d.

(** No key occurs twice in a dict. *)
Fixpoint unique_keys {V} (d : dict V) : bool :=
  match d with
  | [] => true
  | (k, _) :: d' => negb (dict_contains d' k) && unique_keys d'
  end.

(** The invariant of the node. *)
Record wf (s : ArmTeleop) : Prop := mk_wf {
  wf_arm : length (_joint_positions_arm s) = 7%nat;
  wf_selection : selection_ok (_selected_joint s) = true;
  wf_pending : movement_keys_only (_last_pressed s) = true;
  wf_unique : unique_keys (_last_pressed s) = true
}.

(** What a tick may change: with arm joint [i] selected, element [i] of the
    arm list only; with the torso or the gripper selected, that scalar only;
    otherwise no position.  The selection and the length of the arm list
    stay as they are. *)
Definition tick_frame (s s' : ArmTeleop) : Prop :=
  (_selected_joint s' = _selected_joint s) /\
  (length (_joint_positions_arm s') = length (_joint_positions_arm s)) /\
  match _selected_joint s with
  | PyInt i =>
      (_joint_position_torso s' = _joint_position_torso s) /\
      (_joint_position_gripper s' = _joint_position_gripper s) /\
      (forall j : nat,
         py_index (length (_joint_positions_arm s)) i <> Some j ->
         _joint_positions_arm s' !! j = _joint_positions_arm s !! j)
  | v =>
      if py_eq_str v "torso" then
        (_joint_positions_arm s' = _joint_positions_arm s) /\
        (_joint_position_gripper s' = _joint_position_gripper s)
      else if py_eq_str v "gripper" then
        (_joint_positions_arm s' = _joint_positions_arm s) /\
        (_joint_position_torso s' = _joint_position_torso s)
      else position_state s' = position_state s
  end.

(** The position the selection designates, if any. *)
Definition selected_position (s : ArmTeleop) : option float :=
  match _selected_joint s with
  | PyInt i =>
      match py_index (length (_joint_positions_arm s)) i with
      | Some n => _joint_positions_arm s !! n
      | None => None
      end
  | v =>
      if py_eq_str v "torso" then Some (_joint_position_torso s)
      else if py_eq_str v "gripper" then Some (_joint_position_gripper s)
      else None
  end.

(** [p] after the deltas of [keys] have been added to it one by one. *)
Definition add_deltas (p : float) (keys : list Z) : float :=
  fold_left
    (fun acc k =>
       match dict_get movement_bindings k with
       | Some d => (acc + d)%float
       | None => acc
       end)
    keys p.

(** Method calls on the node, and the node after a call (whether the call
    returned or raised). *)
Inductive call : Type :=
  | KeyPressed (keycode now : Z)
  | SetVelocity (now : Z)
  | Publish
  | Run (env : list tick_input)
  | GoalResponse (goal_handle : ClientGoalHandle)
  | GetResult (error_code : Z).

Definition perform (c : call) (s : ArmTeleop) : ArmTeleop :=
  match c with
  | KeyPressed keycode now => snd (_key_pressed keycode now s)
  | SetVelocity now => snd (_set_velocity now s)
  | Publish => snd (_publish s)
  | Run env => snd (run env s)
  | GoalResponse h => snd (goal_response_callback h s)
  | GetResult code => snd (get_result_callback code s)
  end.

(** The nodes that can arise from [__init__] by method calls, whatever the
    keys read and the clock readings. *)
Inductive reachable : ArmTeleop -> Prop :=
  | reachable_init : reachable init
  | reachable_call s c : reachable s -> reachable (perform c s).

(** A computation keeps a property of the node, also when it raises. *)
Definition preserves {A} (P : ArmTeleop -> Prop) (m : M A) : Prop :=
  forall s, P s -> P (snd (m s)).

(** The key handler applied to a sequence of key codes, each with the clock
    reading at its press. *)
Definition press_keys (keys : list (Z * Z)) : M unit :=
  for_in keys (fun kt => _key_pressed (fst kt) (snd kt)).

(** Successive integrator ticks at the given clock readings. *)
Definition ticks (nows : list Z) : M unit :=
  for_in nows _set_velocity.

(** A loop iteration in which [keycode] is read. *)
Definition reads (keycode : Z) (e : tick_input) : Prop :=
  read_key e = Some keycode.

(** No pending press is inside the debounce window at clock reading [now]. *)
Definition stale (now : Z) (d : dict Z) : bool :=
  forallb (fun entry => pressed_duration_ns <=? now - snd entry) d.

(** The node between two iterations of [run], the last tick having come at
    clock reading [last]. *)
Record settled (last : Z) (s : ArmTeleop) : Prop := mk_settled {
  settled_wf : wf s;
  settled_flag : _goal_sent s = false;
  settled_stale : stale last (_last_pressed s) = true
}.

(** The goals the node builds, by the client they go to. *)
Definition goal_shape (submission : controller * Goal) : Prop :=
  let (client, goal_msg) := submission in
  exists ps,
    points goal_msg = [{| positions := ps; time_from_start := one_second |}] /\
    match client with
    | arm_controller =>
        joint_names goal_msg =
          ["arm_1_joint"; "arm_2_joint"; "arm_3_joint";
           "arm_4_joint"; "arm_5_joint"; "arm_6_joint"; "arm_7_joint"] /\
        length ps = 7%nat
    | torso_controller =>
        joint_names goal_msg = ["torso_lift_joint"] /\ length ps = 1%nat
    | gripper_controller =>
        joint_names goal_msg =
          ["gripper_right_finger_joint"; "gripper_left_finger_joint"] /\
        exists p, ps = [p; p]
    end.

(** *** Particular nodes

    Joint 1 is selected and [d] pressed at clock reading 0. *)
Definition joint1_d_pressed : ArmTeleop :=
  perform (KeyPressed (ord "d") 0) (perform (KeyPressed (ord "1") 0) init).

(** The same, followed by [r]: the selection is dropped, the press stays. *)
Definition reselect_after_press : ArmTeleop :=
  perform (KeyPressed (ord "r") 0) joint1_d_pressed.

(** ** The rest of the program *)

(** [TextWindow.read_key]: [getch] answers -1 when no key is waiting. *)
Definition TextWindow_read_key (getch : Z) : option Z :=
  if getch =? -1 then None else Some getch.

(** One iteration's inputs, from what [getch] answers. *)
Definition tick_input_of (getch clock_press clock_tick : Z) : tick_input :=
  {| read_key := TextWindow_read_key getch;
     clock_at_press := clock_press;
     clock_at_tick := clock_tick |}.

(** The callbacks the action client may deliver to the node. *)
Inductive callback : Type :=
  | OnGoalResponse (goal_handle : ClientGoalHandle)
  | OnResult (error_code : Z).

Definition deliver_one (cb : callback) : M unit :=
  match cb with
  | OnGoalResponse goal_handle => goal_response_callback goal_handle
  | OnResult error_code => get_result_callback error_code
  end.

(** Callbacks delivered one after the other. *)
Definition deliver (cbs : list callback) : M unit :=
  for_in cbs deliver_one.

(** The goal handles among [cbs] that report acceptance, in order. *)
Fixpoint accepted_ids (cbs : list callback) : list nat :=
  match cbs with
  | [] => []
  | OnGoalResponse h :: rest =>
      if accepted h then goal_id h :: accepted_ids rest else accepted_ids rest
  | OnResult _ :: rest => accepted_ids rest
  end.



(** The key is bound to something: quit, a joint group, a movement or
    reselect. *)
Definition key_bound (keycode : Z) : bool :=
  (keycode =? ord "q")
  || dict_contains joint_bindings keycode
  || dict_contains movement_bindings keycode
  || (keycode =? ord "r").





(** The clock readings of the ticks never step back along [env], starting
    from [last]. *)
Fixpoint ticks_in_order (last : Z) (env : list tick_input) : Prop :=
  match env with
  | [] => True
  | e :: env' => last <= clock_at_tick e /\ ticks_in_order (clock_at_tick e) env'
  end.

(** ** Proof steps that recur *)

(** Expose the state passing of a method body. *)
Ltac unfold_M :=
  unfold mbind, mret, M_bind, M_ret, bind, ret, raise, get, modify in *.

(** Case split on the comparisons of the key code [k] with the keys of a
    binding table; in each positive case [k] is replaced by the key. *)
Ltac split_key k :=
  repeat match goal with
         | |- context [?c =? k] => destruct (Z.eqb_spec c k) as [<-|_]
         end.

(** An assignment that leaves alone what the invariant speaks of. *)
Ltac wf_fields :=
  let s := fresh "s" in
  intros s [? ? ? ?]; split; cbn; first [assumption | reflexivity].

(** ** The debounce window in nanoseconds

    [rclpyDuration(seconds=0.4)] holds [int(0.4 * 10**9)] nanoseconds; the
    product is the float 400000000.0. *)

Lemma pressed_duration_in_nanoseconds :
  (_pressed_duration * 1000000000)%float = 400000000%float.
Proof. reflexivity. Qed.

(** ** Reasoning about method bodies *)

Lemma bind_eq {A B} (m : M A) (f : A -> M B) s :
  (m ≫= f) s =
  match m s with
  | (Return a, s') => f a s'
  | (Raise e, s') => (Raise e, s')
  end.
Proof. reflexivity. Qed.

Section Preservation.
Context (P : ArmTeleop -> Prop).

Lemma preserves_ret {A} (a : A) : preserves P (mret a).
Proof. intros s Hs. exact Hs. Qed.

Lemma preserves_raise {A} (e : exn) : preserves P (@raise A e).
Proof. intros s Hs. exact Hs. Qed.

Lemma preserves_get : preserves P get.
Proof. intros s Hs. exact Hs. Qed.

Lemma preserves_modify (f : ArmTeleop -> ArmTeleop) :
  (forall s, P s -> P (f s)) -> preserves P (modify f).
Proof. intros Hf s Hs. exact (Hf s Hs). Qed.

Lemma preserves_bind {A B} (m : M A) (f : A -> M B) :
  preserves P m -> (forall a, preserves P (f a)) -> preserves P (m ≫= f).
Proof.
  intros Hm Hf s Hs. rewrite bind_eq.
  specialize (Hm s Hs). destruct (m s) as [[a|e] s']; cbn in Hm |- *.
  - apply Hf, Hm.
  - exact Hm.
Qed.

(** Reading the node first: the rest may depend on what was read, as long
    as the property held of it. *)
Lemma preserves_get_bind {B} (f : ArmTeleop -> M B) :
  (forall self, P self -> preserves P (f self)) -> preserves P (get ≫= f).
Proof. intros Hf s Hs. rewrite bind_eq. cbn. apply Hf; exact Hs. Qed.

Lemma preserves_for_in {A} (body : A -> M unit) (xs : list A) :
  (forall x, preserves P (body x)) -> preserves P (for_in xs body).
Proof.
  intros Hbody. induction xs as [|x xs IH]; cbn [for_in].
  - apply preserves_ret.
  - apply preserves_bind; [apply Hbody | intros _; exact IH].
Qed.
End Preservation.

(** Walk through a method body, leaving the assignments that the
    hypotheses at hand do not cover. *)
Ltac walk_method :=
  repeat match goal with
    | |- preserves _ (mret _) => apply preserves_ret
    | |- preserves _ (ret _) => apply preserves_ret
    | |- preserves _ (raise _) => apply preserves_raise
    | |- preserves _ (get ≫= _) => apply preserves_get_bind; intros ? _
    | |- preserves _ (_ ≫= _) => apply preserves_bind; [|intros ?]
    | |- preserves _ (for_in _ _) => apply preserves_for_in; intros ?
    | |- preserves _ (modify _) => apply preserves_modify; try solve [auto]
    | |- preserves _ (match ?x with _ => _ end) => destruct x
    | |- preserves _ _ =>
        progress unfold write_line, list_getitem, movement_getitem,
          os_kill_SIGINT, logger_info, interface_clear, interface_refresh,
          send_goal_async
    end.

(** ** The binding tables *)

Lemma joint_bindings_selection keycode joint :
  dict_get joint_bindings keycode = Some joint ->
  group_selected joint = true.
Proof.
  unfold joint_bindings. cbn [dict_get].
  repeat (destruct (_ =? keycode); [intros [= <-]; reflexivity|]).
  discriminate.
Qed.

Lemma dict_contains_get {V} (d : dict V) k :
  dict_contains d k = true <-> exists v, dict_get d k = Some v.
Proof.
  unfold dict_contains. destruct (dict_get d k) as [v|].
  - split; [eauto | reflexivity].
  - split; [discriminate | intros [v [=]]].
Qed.

Lemma movement_keys_only_set d k now :
  dict_contains movement_bindings k = true ->
  movement_keys_only d = true ->
  movement_keys_only (dict_set d k now) = true.
Proof.
  intros Hk. unfold movement_keys_only.
  induction d as [|[k' t'] d IH]; cbn [dict_set forallb fst].
  - rewrite Hk. reflexivity.
  - intros [Hk' Hd]%andb_true_iff.
    destruct (k' =? k); cbn [forallb fst]; rewrite Hk'; cbn; auto.
Qed.

Lemma dict_contains_set {V} (d : dict V) k v k' :
  dict_contains (dict_set d k v) k' = dict_contains d k' || (k =? k').
Proof.
  unfold dict_contains.
  induction d as [|[k0 v0] d IH]; cbn [dict_set dict_get].
  - destruct (k =? k'); reflexivity.
  - destruct (k0 =? k) eqn:Hk0; cbn [dict_get].
    + apply Z.eqb_eq in Hk0. subst k0. clear IH.
      destruct (k =? k'); cbn; rewrite ?orb_false_r; reflexivity.
    + destruct (k0 =? k'); [reflexivity | exact IH].
Qed.

Lemma unique_keys_set {V} (d : dict V) k v :
  unique_keys d = true -> unique_keys (dict_set d k v) = true.
Proof.
  induction d as [|[k0 v0] d IH]; cbn [dict_set unique_keys].
  - reflexivity.
  - intros [Hk0 Hd]%andb_true_iff.
    destruct (k0 =? k) eqn:Hk; cbn [unique_keys].
    + rewrite Hk0, Hd. reflexivity.
    + rewrite dict_contains_set, IH by exact Hd.
      rewrite Z.eqb_sym, Hk, orb_false_r, Hk0. reflexivity.
Qed.

(** ** The invariant *)

Lemma wf_init : wf init.
Proof. split; reflexivity. Qed.

Lemma write_line_preserves_wf lineno m : preserves wf (write_line lineno m).
Proof.
  unfold write_line. destruct (_ || _).
  - apply preserves_raise.
  - apply preserves_modify. wf_fields.
Qed.

Lemma _key_pressed_preserves_wf keycode now :
  preserves wf (_key_pressed keycode now).
Proof.
  unfold _key_pressed. apply preserves_get_bind. intros self Hself.
  destruct (keycode =? ord "q").
  { apply preserves_bind; [|intros _; unfold os_kill_SIGINT; apply preserves_bind].
    - apply preserves_modify. wf_fields.
    - apply preserves_modify. wf_fields.
    - intros _. apply preserves_raise. }
  destruct (dict_get joint_bindings keycode) as [joint|] eqn:Hjoint.
  { apply joint_bindings_selection in Hjoint.
    apply andb_true_iff in Hjoint as [Hok _].
    apply preserves_bind.
    - apply preserves_modify. wf_fields.
    - intros _. destruct joint; try apply write_line_preserves_wf.
      apply preserves_raise. }
  destruct (dict_contains movement_bindings keycode) eqn:Hmove; cbn [andb].
  - destruct (negb _).
    + apply preserves_bind.
      * apply preserves_modify. intros s [? ? ? ?]. split; cbn; try assumption.
        -- apply movement_keys_only_set; assumption.
        -- apply unique_keys_set; assumption.
      * intros _. destruct (_selected_joint self).
        -- cbn [py_eq_str]. apply preserves_ret.
        -- apply preserves_bind; [|intros; apply write_line_preserves_wf].
           unfold list_getitem.
           destruct (py_index _ _); [destruct (_ !! _)|];
             first [apply preserves_ret | apply preserves_raise].
        -- repeat (destruct (py_eq_str _ _);
                   [apply write_line_preserves_wf|]).
           apply preserves_ret.
    + destruct (keycode =? ord "r").
      * apply preserves_bind; [|intros; apply write_line_preserves_wf].
        apply preserves_modify. wf_fields.
      * apply preserves_ret.
  - destruct (keycode =? ord "r").
    + apply preserves_bind; [|intros; apply write_line_preserves_wf].
      apply preserves_modify. wf_fields.
    + apply preserves_ret.
Qed.

Lemma movement_getitem_preserves P k : preserves P (movement_getitem k).
Proof.
  unfold movement_getitem.
  destruct (dict_get _ _); [apply preserves_ret | apply preserves_raise].
Qed.

Lemma add_movement_preserves_wf k : preserves wf (add_movement k).
Proof.
  unfold add_movement. apply preserves_get_bind. intros self Hself.
  apply preserves_bind; [|intros _; apply preserves_modify; wf_fields].
  destruct (_selected_joint self).
  - cbn [py_eq_str]. apply preserves_ret.
  - destruct (py_index _ _) as [n|]; [|apply preserves_raise].
    destruct (_ !! n) as [old|]; [|apply preserves_raise].
    apply preserves_bind; [apply movement_getitem_preserves|].
    intros d. apply preserves_modify. intros s [? ? ? ?].
    split; cbn; try assumption.
    rewrite length_insert. apply Hself.
  - repeat (destruct (py_eq_str _ _);
            [apply preserves_bind;
             [apply movement_getitem_preserves
             |intros d; apply preserves_modify; wf_fields]|]).
    apply preserves_ret.
Qed.

Lemma _set_velocity_preserves_wf now : preserves wf (_set_velocity now).
Proof.
  unfold _set_velocity. apply preserves_get_bind. intros self _.
  destruct (pressed_keys now (_last_pressed self)) as [|k keys].
  - apply preserves_ret.
  - apply preserves_bind.
    + apply preserves_for_in, add_movement_preserves_wf.
    + intros _. apply preserves_modify. wf_fields.
Qed.

Lemma send_goal_async_preserves_wf client goal_msg :
  preserves wf (send_goal_async client goal_msg).
Proof. apply preserves_modify. wf_fields. Qed.

Lemma _publish_preserves_wf : preserves wf _publish.
Proof.
  unfold _publish, interface_clear, interface_refresh.
  apply preserves_bind; [apply preserves_modify; wf_fields|intros _].
  apply preserves_bind; [apply write_line_preserves_wf|intros _].
  apply preserves_bind; [apply preserves_modify; wf_fields|intros _].
  apply preserves_get_bind. intros self _.
  unfold _send_goal_arm, _send_goal_torso, _send_goal_gripper.
  destruct (_selected_joint self); cbn [py_eq_str];
    repeat (destruct (String.eqb _ _));
    first [ apply preserves_ret
          | apply preserves_get_bind; intros ? _;
            apply send_goal_async_preserves_wf ].
Qed.

Lemma goal_response_callback_preserves_wf h :
  preserves wf (goal_response_callback h).
Proof.
  unfold goal_response_callback, logger_info. destruct (negb _).
  - apply preserves_modify. wf_fields.
  - apply preserves_bind; [|intros _]; apply preserves_modify; wf_fields.
Qed.

Lemma get_result_callback_preserves_wf code :
  preserves wf (get_result_callback code).
Proof. apply preserves_modify. wf_fields. Qed.

Lemma poll_key_preserves_wf e : preserves wf (poll_key e).
Proof.
  unfold poll_key.
  destruct (read_key e); [apply _key_pressed_preserves_wf | apply preserves_ret].
Qed.

Lemma run_iteration_preserves_wf e : preserves wf (run_iteration e).
Proof.
  unfold run_iteration.
  apply preserves_bind; [apply poll_key_preserves_wf|intros _].
  apply preserves_bind; [apply _set_velocity_preserves_wf|intros _].
  apply preserves_get_bind. intros self _.
  destruct (_goal_sent self); [|apply preserves_ret].
  apply preserves_bind; [apply _publish_preserves_wf|intros _].
  apply preserves_modify. wf_fields.
Qed.

Lemma run_preserves_wf env : preserves wf (run env).
Proof.
  induction env as [|e env IH]; cbn [run];
    apply preserves_get_bind; intros self _;
    destruct (negb (_running self)); try apply preserves_ret.
  apply preserves_bind; [apply run_iteration_preserves_wf|intros _; exact IH].
Qed.

Lemma perform_preserves_wf c s : wf s -> wf (perform c s).
Proof.
  destruct c; cbn [perform].
  - apply _key_pressed_preserves_wf.
  - apply _set_velocity_preserves_wf.
  - apply _publish_preserves_wf.
  - apply run_preserves_wf.
  - apply goal_response_callback_preserves_wf.
  - apply get_result_callback_preserves_wf.
Qed.

Lemma reachable_wf s : reachable s -> wf s.
Proof.
  induction 1 as [|s c _ IH]; [apply wf_init | apply perform_preserves_wf, IH].
Qed.

(** ** Selections and indices *)

Lemma selection_cases v :
  selection_ok v = true ->
  v = PyNone \/ (exists i, v = PyInt i /\ 0 <= i <= 6)
  \/ v = PyStr "torso" \/ v = PyStr "gripper".
Proof.
  destruct v as [|i|name]; cbn [selection_ok]; intros H.
  - left. reflexivity.
  - right. left. exists i. split; [reflexivity | lia].
  - apply orb_true_iff in H as [H|H]; apply String.eqb_eq in H; subst; auto.
Qed.

Lemma py_index_nonneg len i :
  0 <= i < Z.of_nat len -> py_index len i = Some (Z.to_nat i).
Proof.
  intros H. unfold py_index.
  destruct (0 <=? i) eqn:H0; [|lia].
  destruct (i <? Z.of_nat len) eqn:H1; [|lia].
  reflexivity.
Qed.

Lemma arm_index_in_bounds s i :
  wf s -> _selected_joint s = PyInt i ->
  0 <= i <= 6 /\
  py_index (length (_joint_positions_arm s)) i = Some (Z.to_nat i) /\
  exists p, _joint_positions_arm s !! Z.to_nat i = Some p.
Proof.
  intros [Harm Hsel _ _] Hi. rewrite Hi in Hsel. cbn in Hsel.
  assert (0 <= i <= 6) as Hrange by lia.
  split; [exact Hrange|]. split.
  - apply py_index_nonneg. rewrite Harm. lia.
  - apply lookup_lt_is_Some_2. rewrite Harm. lia.
Qed.

Lemma pressed_keys_movement now d :
  movement_keys_only d = true ->
  Forall (fun k => dict_contains movement_bindings k = true) (pressed_keys now d).
Proof.
  unfold movement_keys_only.
  induction d as [|[k t] d IH]; cbn [pressed_keys forallb fst].
  - constructor.
  - intros [Hk Hd]%andb_true_iff. destruct (_ <? _); auto.
Qed.

(** ** One movement, then all of them *)

(** With the invariant and a movement key, the loop body returns, has set
    the dirty flag, and has added the key's delta where the selection points. *)
Lemma add_movement_selected s k d :
  wf s -> dict_get movement_bindings k = Some d ->
  exists s',
    add_movement k s = (Return tt, s') /\
    _goal_sent s' = true /\
    selected_position s' =
      match selected_position s with
      | Some p => Some (p + d)%float
      | None => None
      end.
Proof.
  intros Hwf Hd.
  destruct (selection_cases _ (wf_selection _ Hwf))
    as [Hsel|[(i & Hsel & Hi)|[Hsel|Hsel]]].
  - exists (set_goal_sent true s).
    unfold add_movement, selected_position. unfold_M.
    rewrite Hsel. cbn. rewrite Hsel. cbn. auto.
  - destruct (arm_index_in_bounds s i Hwf Hsel) as (_ & Hidx & p & Hp).
    exists (set_goal_sent true
              (set_joint_positions_arm
                 (<[Z.to_nat i := (p + d)%float]> (_joint_positions_arm s)) s)).
    unfold add_movement, selected_position, movement_getitem.
    unfold_M. rewrite Hsel, Hidx, Hp, Hd. cbn.
    rewrite Hsel, length_insert, Hidx.
    repeat split. apply list_lookup_insert_eq.
    apply lookup_lt_Some in Hp. exact Hp.
  - exists (set_goal_sent true
              (set_joint_position_torso (_joint_position_torso s + d)%float s)).
    unfold add_movement, selected_position, movement_getitem.
    unfold_M. rewrite Hsel, Hd. cbn. rewrite Hsel. cbn. auto.
  - exists (set_goal_sent true
              (set_joint_position_gripper (_joint_position_gripper s + d)%float s)).
    unfold add_movement, selected_position, movement_getitem.
    unfold_M. rewrite Hsel, Hd. cbn. rewrite Hsel. cbn. auto.
Qed.

Lemma add_deltas_cons p k d keys :
  dict_get movement_bindings k = Some d ->
  add_deltas p (k :: keys) = add_deltas (p + d)%float keys.
Proof. intros Hd. unfold add_deltas. cbn [fold_left]. rewrite Hd. reflexivity. Qed.

Lemma for_in_add_movement keys :
  forall s,
    wf s ->
    Forall (fun k => dict_contains movement_bindings k = true) keys ->
    exists s',
      for_in keys add_movement s = (Return tt, s') /\
      _goal_sent s' = (if keys is [] then _goal_sent s else true) /\
      selected_position s' =
        match selected_position s with
        | Some p => Some (add_deltas p keys)
        | None => None
        end.
Proof.
  induction keys as [|k keys IH]; intros s Hwf Hkeys.
  - exists s. cbn. destruct (selected_position s); auto.
  - apply Forall_cons in Hkeys as [Hk Hkeys].
    apply dict_contains_get in Hk as [d Hd].
    destruct (add_movement_selected s k d Hwf Hd) as (s1 & Hrun1 & Hsent1 & Hpos1).
    assert (wf s1) as Hwf1.
    { pose proof (add_movement_preserves_wf k s Hwf) as H.
      rewrite Hrun1 in H. exact H. }
    destruct (IH s1 Hwf1 Hkeys) as (s' & Hrun & Hsent & Hpos).
    exists s'. cbn [for_in]. rewrite bind_eq, Hrun1. split; [exact Hrun|].
    split.
    + rewrite Hsent. destruct keys; [exact Hsent1 | reflexivity].
    + rewrite Hpos, Hpos1. destruct (selected_position s) as [p|]; [|reflexivity].
      rewrite (add_deltas_cons p k d keys Hd). reflexivity.
Qed.

(** ** What a tick leaves alone *)

Lemma tick_frame_refl s : tick_frame s s.
Proof.
  unfold tick_frame. repeat split.
  destruct (_selected_joint s); cbn [py_eq_str]; auto.
  repeat destruct (String.eqb _ _); auto.
Qed.

Lemma add_movement_preserves_frame s0 k : preserves (tick_frame s0) (add_movement k).
Proof.
  unfold add_movement. apply preserves_get_bind. intros self Hself.
  apply preserves_bind; [|intros _; apply preserves_modify; intros s H; exact H].
  unfold tick_frame in Hself. destruct Hself as (Hsel & Hlen & Hpos).
  rewrite Hsel. destruct (_selected_joint s0) as [|i|name] eqn:Hsel0.
  - cbn [py_eq_str]. apply preserves_ret.
  - rewrite Hlen.
    destruct (py_index _ i) as [n|] eqn:Hidx; [|apply preserves_raise].
    destruct (_ !! n) as [old|]; [|apply preserves_raise].
    apply preserves_bind; [apply movement_getitem_preserves|].
    intros d. apply preserves_modify.
    intros s Hs. unfold tick_frame in Hs |- *. rewrite Hsel0 in Hs |- *.
    destruct Hs as (Hsel' & Hlen' & Htorso & Hgripper & _).
    destruct Hpos as (_ & _ & Harm). cbn.
    repeat split; try assumption.
    + rewrite length_insert. exact Hlen.
    + intros j Hj. rewrite Hidx in Hj.
      rewrite list_lookup_insert_ne by congruence.
      apply Harm, Hj.
  - cbn [py_eq_str] in Hpos |- *.
    destruct (String.eqb name "torso") eqn:Htorso.
    { apply preserves_bind; [apply movement_getitem_preserves|].
      intros d. apply preserves_modify.
      intros s Hs. unfold tick_frame in Hs |- *. rewrite Hsel0 in Hs |- *.
      cbn [py_eq_str] in Hs |- *. rewrite Htorso in Hs |- *.
      destruct Hs as (Hsel' & Hlen' & Hpos').
      repeat split; first [assumption | apply Hpos']. }
    destruct (String.eqb name "gripper") eqn:Hgripper; [|apply preserves_ret].
    apply preserves_bind; [apply movement_getitem_preserves|].
    intros d. apply preserves_modify.
    intros s Hs. unfold tick_frame in Hs |- *. rewrite Hsel0 in Hs |- *.
    cbn [py_eq_str] in Hs |- *. rewrite Htorso, Hgripper in Hs |- *.
    destruct Hs as (Hsel' & Hlen' & Hpos').
    repeat split; first [assumption | apply Hpos'].
Qed.

Lemma _set_velocity_preserves_frame s0 now :
  preserves (tick_frame s0) (_set_velocity now).
Proof.
  unfold _set_velocity. apply preserves_get_bind. intros self _.
  destruct (pressed_keys now (_last_pressed self)) as [|k keys].
  - apply preserves_ret.
  - apply preserves_bind.
    + apply preserves_for_in. intros k'. apply add_movement_preserves_frame.
    + intros _. apply preserves_modify. intros s H. exact H.
Qed.

Lemma tick_frame_unselected s s' :
  _selected_joint s = PyNone -> tick_frame s s' ->
  _selected_joint s' = PyNone /\ position_state s' = position_state s.
Proof.
  intros Hsel (Hsel' & _ & Hpos). rewrite Hsel in Hsel', Hpos.
  cbn in Hpos. auto.
Qed.


(** A property that no assignment to a position, to the dirty flag or to the
    pending presses can break is kept by a tick. *)
Lemma _set_velocity_preserves_other (P : ArmTeleop -> Prop) now :
  (forall s v, P s -> P (set_joint_positions_arm v s)) ->
  (forall s v, P s -> P (set_joint_position_torso v s)) ->
  (forall s v, P s -> P (set_joint_position_gripper v s)) ->
  (forall s v, P s -> P (set_goal_sent v s)) ->
  (forall s v, P s -> P (set_last_pressed v s)) ->
  preserves P (_set_velocity now).
Proof.
  intros Harm Htorso Hgripper Hsent Hpending.
  unfold _set_velocity. apply preserves_get_bind. intros self _.
  destruct (pressed_keys now (_last_pressed self)) as [|k keys];
    [apply preserves_ret|].
  apply preserves_bind; [|intros _; apply preserves_modify; auto].
  apply preserves_for_in. intros k'. unfold add_movement.
  apply preserves_get_bind. intros self' _.
  apply preserves_bind; [|intros _; apply preserves_modify; auto].
  destruct (_selected_joint self').
  - cbn [py_eq_str]. apply preserves_ret.
  - destruct (py_index _ _) as [n|]; [|apply preserves_raise].
    destruct (_ !! n) as [old|]; [|apply preserves_raise].
    apply preserves_bind; [apply movement_getitem_preserves|].
    intros d. apply preserves_modify. auto.
  - repeat (destruct (py_eq_str _ _);
            [apply preserves_bind;
             [apply movement_getitem_preserves
             |intros d; apply preserves_modify; auto]|]).
    apply preserves_ret.
Qed.

Lemma _set_velocity_sends_nothing now s :
  sent_goals (snd (_set_velocity now s)) = sent_goals s.
Proof.
  apply (_set_velocity_preserves_other (fun s' => sent_goals s' = sent_goals s));
    auto.
Qed.

(** ** The tick on a well-formed node *)

Lemma get_bind_eq {B} (f : ArmTeleop -> M B) s : (get ≫= f) s = f s s.
Proof. reflexivity. Qed.

Lemma _set_velocity_summary now s :
  wf s ->
  exists s',
    _set_velocity now s = (Return tt, s') /\
    _last_pressed s' =
      (if pressed_keys now (_last_pressed s) is [] then _last_pressed s else []) /\
    _goal_sent s' =
      (if pressed_keys now (_last_pressed s) is [] then _goal_sent s else true) /\
    selected_position s' =
      match selected_position s with
      | Some p => Some (add_deltas p (pressed_keys now (_last_pressed s)))
      | None => None
      end /\
    (pressed_keys now (_last_pressed s) = [] -> s' = s).
Proof.
  intros Hwf.
  pose proof (pressed_keys_movement now _ (wf_pending _ Hwf)) as Hkeys.
  unfold _set_velocity. rewrite get_bind_eq.
  destruct (pressed_keys now (_last_pressed s)) as [|k keys].
  - exists s. cbn. destruct (selected_position s); auto.
  - destruct (for_in_add_movement (k :: keys) s Hwf Hkeys)
      as (s1 & Hrun & Hsent & Hpos).
    exists (set_last_pressed [] s1).
    rewrite bind_eq, Hrun.
    split; [reflexivity|]. split; [reflexivity|]. split; [exact Hsent|].
    split; [exact Hpos | discriminate].
Qed.

(** ** The key handler, key by key *)

Lemma movement_key_unbound k d :
  dict_get movement_bindings k = Some d ->
  (k =? ord "q") = false /\ dict_get joint_bindings k = None.
Proof.
  unfold movement_bindings. cbn [dict_get].
  split_key k; try discriminate; intros _; split; reflexivity.
Qed.

Lemma digit_key_not_quit k joint :
  dict_get joint_bindings k = Some joint -> (k =? ord "q") = false.
Proof.
  unfold joint_bindings. cbn [dict_get].
  split_key k; try discriminate; intros _; reflexivity.
Qed.

(** A movement key with no selection: nothing at all happens. *)
Lemma _key_pressed_unselected s k d now :
  _selected_joint s = PyNone ->
  dict_get movement_bindings k = Some d ->
  _key_pressed k now s = (Return tt, s).
Proof.
  intros Hsel Hd. destruct (movement_key_unbound k d Hd) as [Hq Hjoint].
  unfold _key_pressed. rewrite get_bind_eq, Hq, Hjoint, Hsel.
  cbn [is_None negb]. rewrite andb_false_r.
  assert ((k =? ord "r") = false) as ->; [|reflexivity].
  clear Hq Hjoint. revert Hd. unfold movement_bindings. cbn [dict_get].
  split_key k; try discriminate; intros _; reflexivity.
Qed.

(** A movement key with a group selected: the press is recorded. *)
Lemma _key_pressed_movement s k d now :
  wf s -> group_selected (_selected_joint s) = true ->
  dict_get movement_bindings k = Some d ->
  exists s1,
    _key_pressed k now s = (Return tt, s1) /\
    _last_pressed s1 = dict_set (_last_pressed s) k now /\
    _selected_joint s1 = _selected_joint s /\
    position_state s1 = position_state s /\
    _goal_sent s1 = _goal_sent s /\
    sent_goals s1 = sent_goals s.
Proof.
  intros Hwf Hgroup Hd. destruct (movement_key_unbound k d Hd) as [Hq Hjoint].
  apply andb_true_iff in Hgroup as [_ Hnone].
  unfold _key_pressed. rewrite get_bind_eq, Hq, Hjoint.
  unfold dict_contains. rewrite Hd, Hnone. cbn [andb].
  rewrite bind_eq. cbn [modify].
  destruct (selection_cases _ (wf_selection _ Hwf))
    as [Hsel|[(i & Hsel & Hi)|[Hsel|Hsel]]].
  - rewrite Hsel in Hnone. discriminate.
  - destruct (arm_index_in_bounds s i Hwf Hsel) as (_ & Hidx & p & Hp).
    rewrite Hsel. unfold list_getitem. rewrite Hidx, Hp.
    eexists. split; [reflexivity|]. cbn. auto.
  - rewrite Hsel. eexists. split; [reflexivity|]. cbn. auto.
  - rewrite Hsel. eexists. split; [reflexivity|]. cbn. auto.
Qed.

(** A digit key: the selection is set, and a line written; nothing else. *)
Lemma _key_pressed_digit s k joint now :
  dict_get joint_bindings k = Some joint ->
  exists s1,
    _key_pressed k now s = (Return tt, s1) /\
    _selected_joint s1 = joint /\
    position_state s1 = position_state s /\
    _last_pressed s1 = _last_pressed s /\
    _running s1 = _running s /\
    _goal_sent s1 = _goal_sent s /\
    sent_goals s1 = sent_goals s.
Proof.
  intros Hjoint. pose proof (digit_key_not_quit k joint Hjoint) as Hq.
  pose proof (joint_bindings_selection k joint Hjoint) as Hgroup.
  unfold _key_pressed. rewrite get_bind_eq, Hq, Hjoint.
  destruct joint as [|i|name]; [discriminate| |];
    (eexists; split; [reflexivity|]; cbn; auto 10).
Qed.

(** The quit key: the flag is cleared and the interrupt raised. *)
Lemma _key_pressed_quit s now :
  _key_pressed (ord "q") now s =
  (Raise KeyboardInterrupt, set_sigint (S (sigint s)) (set_running false s)).
Proof. reflexivity. Qed.

(** On a well-formed node the key handler returns, except for the quit key. *)
Lemma _key_pressed_outcome s k now :
  wf s ->
  fst (_key_pressed k now s) = Return tt \/
  (k = ord "q" /\ fst (_key_pressed k now s) = Raise KeyboardInterrupt).
Proof.
  intros Hwf. destruct (k =? ord "q") eqn:Hq.
  { apply Z.eqb_eq in Hq. subst k. right. split; reflexivity. }
  left.
  destruct (dict_get joint_bindings k) as [joint|] eqn:Hjoint.
  { destruct (_key_pressed_digit s k joint now Hjoint) as (s1 & -> & _).
    reflexivity. }
  destruct (dict_get movement_bindings k) as [d|] eqn:Hd.
  - destruct (is_None (_selected_joint s)) eqn:Hnone.
    + destruct (_selected_joint s) eqn:Hsel; try discriminate.
      rewrite (_key_pressed_unselected s k d now Hsel Hd). reflexivity.
    + assert (group_selected (_selected_joint s) = true) as Hgroup.
      { unfold group_selected. rewrite (wf_selection _ Hwf), Hnone. reflexivity. }
      destruct (_key_pressed_movement s k d now Hwf Hgroup Hd) as (s1 & -> & _).
      reflexivity.
  - unfold _key_pressed. rewrite get_bind_eq, Hq, Hjoint.
    unfold dict_contains. rewrite Hd. cbn [andb].
    destruct (k =? ord "r"); reflexivity.
Qed.

(** A property that no assignment to the run flag, the selection, the
    window or the pending presses can break is kept by the key handler. *)
Lemma _key_pressed_preserves_other (P : ArmTeleop -> Prop) keycode now :
  (forall s v, P s -> P (set_running v s)) ->
  (forall s v, P s -> P (set_sigint v s)) ->
  (forall s v, P s -> P (set_selected_joint v s)) ->
  (forall s v, P s -> P (set_window v s)) ->
  (forall s v, P s -> P (set_last_pressed v s)) ->
  preserves P (_key_pressed keycode now).
Proof. intros Hrun Hsig Hsel Hwin Hpending. unfold _key_pressed. walk_method. Qed.

(** The key handler writes neither a position nor the dirty flag, and sends
    nothing. *)
Lemma _key_pressed_keeps keycode now s :
  position_state (snd (_key_pressed keycode now s)) = position_state s /\
  _goal_sent (snd (_key_pressed keycode now s)) = _goal_sent s /\
  sent_goals (snd (_key_pressed keycode now s)) = sent_goals s.
Proof.
  apply (_key_pressed_preserves_other
           (fun s' => position_state s' = position_state s /\
                      _goal_sent s' = _goal_sent s /\
                      sent_goals s' = sent_goals s));
    auto.
Qed.

(** Unless it leaves a group selected, the key handler records no press. *)
Lemma _key_pressed_unselected_after keycode now s :
  _selected_joint (snd (_key_pressed keycode now s)) = PyNone ->
  _last_pressed (snd (_key_pressed keycode now s)) = _last_pressed s.
Proof.
  unfold _key_pressed. rewrite get_bind_eq.
  destruct (keycode =? ord "q"); [reflexivity|].
  destruct (dict_get joint_bindings keycode) as [joint|] eqn:Hjoint.
  { apply joint_bindings_selection in Hjoint.
    destruct joint as [|i|name]; [discriminate| |]; reflexivity. }
  destruct (dict_contains movement_bindings keycode && _) eqn:Hmove.
  - apply andb_true_iff in Hmove as [_ Hsel].
    rewrite bind_eq. cbn [modify].
    destruct (_selected_joint s) as [|i|name] eqn:Hs; [discriminate| |].
    + intros Hnone. exfalso. revert Hnone.
      unfold list_getitem.
      destruct (py_index _ i) as [n|]; [destruct (_ !! n)|];
        unfold write_line; unfold_M; cbn; rewrite Hs; discriminate.
    + intros Hnone. exfalso. revert Hnone. cbn [py_eq_str].
      repeat (destruct (String.eqb name _));
        unfold write_line; unfold_M; cbn; rewrite Hs; discriminate.
  - destruct (keycode =? ord "r"); reflexivity.
Qed.

(** ** Pending presses and the debounce window *)

Lemma pressed_keys_contained now d k :
  In k (pressed_keys now d) -> dict_contains d k = true.
Proof.
  unfold dict_contains.
  induction d as [|[k0 t0] d IH]; cbn [pressed_keys dict_get]; [intros []|].
  intros Hin. destruct (k0 =? k) eqn:Hk; [reflexivity|].
  apply IH. destruct (_ <? _); [|exact Hin].
  destruct Hin as [->|Hin]; [|exact Hin].
  rewrite Z.eqb_refl in Hk. discriminate.
Qed.

Lemma pressed_keys_NoDup now d :
  unique_keys d = true -> NoDup (pressed_keys now d).
Proof.
  induction d as [|[k0 t0] d IH]; cbn [pressed_keys unique_keys].
  - intros _. constructor.
  - intros [Hk0 Hd]%andb_true_iff.
    destruct (_ <? _); [|auto].
    apply NoDup_cons_2; [|auto].
    intros Hin%list_elem_of_In%pressed_keys_contained.
    rewrite Hin in Hk0. discriminate.
Qed.

(** Once [k] is recorded at [press_time], it is among the keys a tick at
    [now] applies exactly when the press is less than the window old. *)
Lemma pressed_keys_set now d k press_time :
  unique_keys d = true ->
  In k (pressed_keys now (dict_set d k press_time)) <->
  now - press_time < pressed_duration_ns.
Proof.
  induction d as [|[k0 t0] d IH]; cbn [dict_set unique_keys].
  - intros _. cbn [pressed_keys].
    destruct (now - press_time <? _) eqn:Hdue.
    + split; [lia | intros _; left; reflexivity].
    + split; [intros [] | lia].
  - intros [Hk0 Hd]%andb_true_iff.
    destruct (k0 =? k) eqn:Hk; cbn [pressed_keys].
    + apply Z.eqb_eq in Hk. subst k0.
      destruct (now - press_time <? _) eqn:Hdue.
      * split; [lia | intros _; left; reflexivity].
      * split; [|lia]. intros Hin%pressed_keys_contained.
        rewrite Hin in Hk0. discriminate.
    + rewrite <- (IH Hd).
      destruct (now - t0 <? _); [|reflexivity].
      split; [|right; assumption].
      intros [->|Hin]; [|exact Hin].
      rewrite Z.eqb_refl in Hk. discriminate.
Qed.

(** ** Dispatch *)

Lemma _publish_unselected s :
  _selected_joint s = PyNone ->
  exists s',
    _publish s = (Return tt, s') /\
    sent_goals s' = sent_goals s /\
    position_state s' = position_state s.
Proof.
  intros Hsel. eexists. unfold _publish, interface_clear, interface_refresh.
  unfold_M. cbn. rewrite Hsel. cbn. auto.
Qed.

Lemma _publish_returns s : fst (_publish s) = Return tt.
Proof.
  unfold _publish, interface_clear, interface_refresh,
    _send_goal_arm, _send_goal_torso, _send_goal_gripper, send_goal_async.
  unfold_M. cbn.
  destruct (_selected_joint s) as [| |name]; cbn [py_eq_str]; try reflexivity.
  repeat (destruct (String.eqb name _); [reflexivity|]). reflexivity.
Qed.

(** ** The loop *)

Lemma run_stopped env s :
  _running s = false -> run env s = (Return true, s).
Proof. intros H. destruct env; cbn [run]; rewrite get_bind_eq, H; reflexivity. Qed.

Lemma run_nil s :
  _running s = true -> run [] s = (Return false, s).
Proof. intros H. cbn [run]. rewrite get_bind_eq, H. reflexivity. Qed.

Lemma run_cons e env s :
  _running s = true ->
  run (e :: env) s =
  match run_iteration e s with
  | (Return _, s1) => run env s1
  | (Raise exception, s1) => (Raise exception, s1)
  end.
Proof. intros H. cbn [run]. rewrite get_bind_eq, H. reflexivity. Qed.

(** Running over [pre ++ post] is running over [pre] and, if the loop is
    still going, over [post]. *)
Lemma run_app pre post :
  forall s,
    run (pre ++ post) s =
    match run pre s with
    | (Return false, s1) => run post s1
    | ended => ended
    end.
Proof.
  induction pre as [|e pre IH]; intros s; cbn [app].
  - destruct (_running s) eqn:Hrun.
    + rewrite (run_nil s Hrun). reflexivity.
    + rewrite !run_stopped by exact Hrun. reflexivity.
  - destruct (_running s) eqn:Hrun.
    + rewrite !run_cons by exact Hrun.
      destruct (run_iteration e s) as [[[]|exception] s1]; [apply IH | reflexivity].
    + rewrite !run_stopped by exact Hrun. reflexivity.
Qed.

Lemma run_iteration_quit e s :
  reads (ord "q") e ->
  run_iteration e s =
  (Raise KeyboardInterrupt, set_sigint (S (sigint s)) (set_running false s)).
Proof. unfold reads, run_iteration, poll_key. intros ->. reflexivity. Qed.

(** * The claims *)

(** ** C1: movement keys with no group selected *)

Lemma ticks_unselected nows :
  forall s,
    _selected_joint s = PyNone ->
    _selected_joint (snd (ticks nows s)) = PyNone /\
    position_state (snd (ticks nows s)) = position_state s.
Proof.
  intros s Hsel.
  apply (preserves_for_in
           (fun s' => _selected_joint s' = PyNone /\
                      position_state s' = position_state s)
           _set_velocity nows); [|auto].
  intros now s1 [Hsel1 Hpos1].
  pose proof (_set_velocity_preserves_frame s1 now s1 (tick_frame_refl s1)) as Hframe.
  destruct (tick_frame_unselected _ _ Hsel1 Hframe) as [Hsel2 Hpos2].
  split; [exact Hsel2 | congruence].
Qed.

(** C1, as stated, fails on the code: with no joint group selected (the
    initial state), pressing [a] at clock reading 5 stores no timestamp for
    [a] in [_last_pressed]. *)
Lemma unselected_press_is_not_recorded :
  _selected_joint init = PyNone /\
  dict_contains movement_bindings (ord "a") = true /\
  dict_get (_last_pressed (snd (_key_pressed (ord "a") 5 init))) (ord "a")
    <> Some 5.
Proof. repeat split. cbn. discriminate. Qed.

(** C1, amended: for every movement key (a, d, w, s, o, p) pressed while no
    joint group is selected, the key handler returns and leaves the node
    exactly as it was: the press is not recorded in [_last_pressed].  No
    number of subsequent ticks, at any clock readings, changes the arm list,
    the torso or the gripper position. *)
Theorem unselected_press_has_no_effect s k d now nows :
  _selected_joint s = PyNone ->
  dict_get movement_bindings k = Some d ->
  _key_pressed k now s = (Return tt, s) /\
  position_state (snd (ticks nows (snd (_key_pressed k now s)))) =
    position_state s.
Proof.
  intros Hsel Hd.
  rewrite (_key_pressed_unselected s k d now Hsel Hd). cbn [snd].
  split; [reflexivity|]. apply ticks_unselected, Hsel.
Qed.

Lemma unselected_press_has_no_effect_witness :
  _key_pressed (ord "a") 5 init = (Return tt, init) /\
  position_state
    (snd (ticks [100; 200] (snd (_key_pressed (ord "a") 5 init)))) =
    position_state init.
Proof.
  apply (unselected_press_has_no_effect init (ord "a") (-0.01)%float 5 [100; 200]);
    reflexivity.
Defined.

(** ** C2: which ticks clear the pending presses *)

(** C2, as stated, fails on the code: joint 1 is selected and [d] pressed at
    clock reading 0; the tick at 0.4 s returns, finds the press too old, and
    leaves it in [_last_pressed]. *)
Lemma expired_press_stays_pending :
  _set_velocity 400000000 joint1_d_pressed = (Return tt, joint1_d_pressed) /\
  _last_pressed joint1_d_pressed = [(ord "d", 0)].
Proof. split; reflexivity. Qed.

(** C2, amended: a tick returns, and when at least one recorded press is
    inside the debounce window it leaves [_last_pressed] empty: every entry
    is removed, the expired ones included.  A tick at which no recorded press
    is inside the window changes nothing, so the entries stay. *)
Theorem tick_clears_when_a_press_is_due now s :
  wf s ->
  exists s',
    _set_velocity now s = (Return tt, s') /\
    (pressed_keys now (_last_pressed s) <> [] -> _last_pressed s' = []) /\
    (pressed_keys now (_last_pressed s) = [] -> s' = s).
Proof.
  intros Hwf.
  destruct (_set_velocity_summary now s Hwf) as (s' & Hrun & Hpending & _ & _ & Hsame).
  exists s'. split; [exact Hrun|]. split; [|exact Hsame].
  intros Hdue. rewrite Hpending.
  destruct (pressed_keys now (_last_pressed s)); [contradiction | reflexivity].
Qed.

Lemma tick_clears_when_a_press_is_due_witness :
  exists s',
    _set_velocity 100000000 joint1_d_pressed = (Return tt, s') /\
    (pressed_keys 100000000 (_last_pressed joint1_d_pressed) <> [] ->
     _last_pressed s' = []) /\
    (pressed_keys 100000000 (_last_pressed joint1_d_pressed) = [] ->
     s' = joint1_d_pressed).
Proof.
  apply (tick_clears_when_a_press_is_due 100000000 joint1_d_pressed).
  split; reflexivity.
Defined.

(** ** C3: the dirty flag *)

(** C3, as stated, fails on the code: joint 1 is selected, [d] is pressed at
    clock reading 0 and [r] drops the selection.  The tick at reading 0 finds
    the press inside the window: with the selection [None] it changes no
    position, and it sets [_goal_sent]. *)
Lemma dirty_flag_set_without_mutation :
  _selected_joint reselect_after_press = PyNone /\
  _goal_sent reselect_after_press = false /\
  _goal_sent (snd (_set_velocity 0 reselect_after_press)) = true /\
  position_state (snd (_set_velocity 0 reselect_after_press)) =
    position_state reselect_after_press.
Proof. repeat split. Qed.

(** C3, amended: a tick returns, and [_goal_sent] is set by it exactly when
    some recorded press is inside the debounce window (otherwise the flag
    keeps its value).  Every tick that changes a position sets the flag.
    With the selection [None] a tick changes no position, and the [_publish]
    that follows a set flag sends no goal. *)
Theorem dirty_flag_follows_due_presses now s :
  wf s ->
  exists s',
    _set_velocity now s = (Return tt, s') /\
    _goal_sent s' =
      (if pressed_keys now (_last_pressed s) is [] then _goal_sent s else true) /\
    (position_state s' <> position_state s -> _goal_sent s' = true) /\
    (_selected_joint s = PyNone ->
     position_state s' = position_state s /\
     exists s'', _publish s' = (Return tt, s'') /\ sent_goals s'' = sent_goals s).
Proof.
  intros Hwf.
  destruct (_set_velocity_summary now s Hwf) as (s' & Hrun & _ & Hsent & _ & Hsame).
  exists s'. split; [exact Hrun|]. split; [exact Hsent|]. split.
  - intros Hmoved. rewrite Hsent.
    destruct (pressed_keys now (_last_pressed s)); [|reflexivity].
    rewrite Hsame in Hmoved by reflexivity. contradiction.
  - intros Hsel.
    pose proof (_set_velocity_preserves_frame s now s (tick_frame_refl s)) as Hframe.
    rewrite Hrun in Hframe. cbn [snd] in Hframe.
    destruct (tick_frame_unselected _ _ Hsel Hframe) as [Hsel' Hpos].
    split; [exact Hpos|].
    destruct (_publish_unselected s' Hsel') as (s'' & Hpub & Hgoals & _).
    exists s''. split; [exact Hpub|]. rewrite Hgoals.
    pose proof (_set_velocity_sends_nothing now s) as Hnone.
    rewrite Hrun in Hnone. exact Hnone.
Qed.

Lemma dirty_flag_follows_due_presses_witness :
  exists s',
    _set_velocity 0 reselect_after_press = (Return tt, s') /\
    _goal_sent s' =
      (if pressed_keys 0 (_last_pressed reselect_after_press) is []
       then _goal_sent reselect_after_press else true) /\
    (position_state s' <> position_state reselect_after_press ->
     _goal_sent s' = true) /\
    (_selected_joint reselect_after_press = PyNone ->
     position_state s' = position_state reselect_after_press /\
     exists s'', _publish s' = (Return tt, s'') /\
                 sent_goals s'' = sent_goals reselect_after_press).
Proof.
  apply (dirty_flag_follows_due_presses 0 reselect_after_press).
  split; reflexivity.
Defined.



(** *** Inside the loop

    After an iteration of [run] every press still pending is outside the
    window of the tick of that iteration.  So, as long as the clock does not
    step back from one tick to the next, a tick that finds no group selected
    finds no press to apply: it sets no flag and changes nothing. *)

Lemma stale_pressed_keys now d :
  stale now d = true <-> pressed_keys now d = [].
Proof.
  unfold stale.
  induction d as [|[k t] d IH]; cbn [forallb pressed_keys snd].
  - split; reflexivity.
  - destruct (Z.ltb_spec (now - t) pressed_duration_ns) as [Hlt|Hge].
    + assert ((pressed_duration_ns <=? now - t) = false) as -> by lia.
      split; discriminate.
    + assert ((pressed_duration_ns <=? now - t) = true) as -> by lia.
      exact IH.
Qed.

Lemma stale_later last now d :
  last <= now -> stale last d = true -> stale now d = true.
Proof.
  intros Hlater. unfold stale.
  induction d as [|[k t] d IH]; cbn [forallb snd]; [reflexivity|].
  intros [Ht Hd]%andb_true_iff. rewrite (IH Hd), andb_true_r. lia.
Qed.

Lemma settled_init last : settled last init.
Proof. split; [apply wf_init | reflexivity | reflexivity]. Qed.

Lemma _publish_keeps_pending s :
  _last_pressed (snd (_publish s)) = _last_pressed s.
Proof.
  assert (preserves (fun s' => _last_pressed s' = _last_pressed s) _publish) as H.
  { unfold _publish, _send_goal_arm, _send_goal_torso, _send_goal_gripper.
    walk_method. }
  apply H. reflexivity.
Qed.

Lemma run_iteration_settles e s s' :
  wf s -> run_iteration e s = (Return tt, s') -> settled (clock_at_tick e) s'.
Proof.
  intros Hwf Hrun.
  assert (wf s') as Hwf'.
  { pose proof (run_iteration_preserves_wf e s Hwf) as H.
    rewrite Hrun in H. exact H. }
  revert Hrun. unfold run_iteration. rewrite bind_eq.
  pose proof (poll_key_preserves_wf e s Hwf) as Hwf1.
  destruct (poll_key e s) as [[[]|exception] s1]; [|discriminate].
  cbn [snd] in Hwf1. rewrite bind_eq.
  destruct (_set_velocity_summary (clock_at_tick e) s1 Hwf1)
    as (s2 & -> & Hpending & _ & _ & _).
  assert (stale (clock_at_tick e) (_last_pressed s2) = true) as Hstale.
  { rewrite Hpending.
    destruct (pressed_keys _ (_last_pressed s1)) eqn:Hkeys; [|reflexivity].
    apply stale_pressed_keys, Hkeys. }
  rewrite get_bind_eq. destruct (_goal_sent s2) eqn:Hsent.
  - rewrite bind_eq.
    pose proof (_publish_returns s2) as Hret.
    pose proof (_publish_keeps_pending s2) as Hkeep.
    destruct (_publish s2) as [[[]|exception] s3]; [|discriminate].
    intros [= <-]. split; [exact Hwf' | reflexivity |].
    cbn in Hkeep |- *. rewrite Hkeep. exact Hstale.
  - intros [= <-]. split; assumption.
Qed.

Lemma poll_key_unselected e s s1 :
  poll_key e s = (Return tt, s1) ->
  _selected_joint s1 = PyNone ->
  _last_pressed s1 = _last_pressed s.
Proof.
  unfold poll_key. destruct (read_key e) as [keycode|].
  - intros Hpoll.
    pose proof (_key_pressed_unselected_after keycode (clock_at_press e) s) as H.
    rewrite Hpoll in H. exact H.
  - intros [= <-] _. reflexivity.
Qed.

(** The second half of C3, inside the loop: the node is [settled] after the
    previous tick, at clock reading [last], and the clock has not stepped
    back since.  If the key handling of this iteration leaves no group
    selected, the tick returns with the node untouched: no position changes
    and [_goal_sent] stays false. *)
Lemma unselected_tick_in_loop_is_idle last e s s1 :
  settled last s ->
  last <= clock_at_tick e ->
  poll_key e s = (Return tt, s1) ->
  _selected_joint s1 = PyNone ->
  _set_velocity (clock_at_tick e) s1 = (Return tt, s1) /\ _goal_sent s1 = false.
Proof.
  intros [Hwf Hflag Hstale] Hlater Hpoll Hsel.
  pose proof (poll_key_preserves_wf e s Hwf) as Hwf1.
  rewrite Hpoll in Hwf1. cbn [snd] in Hwf1.
  pose proof (poll_key_unselected e s s1 Hpoll Hsel) as Hpending.
  assert (_goal_sent s1 = false) as Hflag1.
  { revert Hpoll. unfold poll_key. destruct (read_key e) as [keycode|].
    - intros Hpoll.
      destruct (_key_pressed_keeps keycode (clock_at_press e) s) as (_ & H & _).
      rewrite Hpoll in H. cbn [snd] in H. congruence.
    - intros [= <-]. exact Hflag. }
  split; [|exact Hflag1].
  destruct (_set_velocity_summary (clock_at_tick e) s1 Hwf1)
    as (s2 & -> & _ & _ & _ & Hsame).
  rewrite Hsame; [reflexivity|].
  apply stale_pressed_keys. rewrite Hpending.
  exact (stale_later last _ _ Hlater Hstale).
Qed.

(** The flag the counterexample of C3 sets can also be met in [run], when a
    press outlives its own tick (0.4 s pass between the key handling and the
    tick) and the clock then steps back: the fourth tick below finds [d]
    inside the window with nothing selected, and [_publish] redraws the
    window without sending a goal. *)
Lemma dirty_flag_in_run_after_clock_step_back :
  run [ {| read_key := Some (ord "1"); clock_at_press := 0; clock_at_tick := 0 |};
        {| read_key := Some (ord "d"); clock_at_press := 0;
           clock_at_tick := 400000000 |};
        {| read_key := Some (ord "r"); clock_at_press := 400000000;
           clock_at_tick := 400000000 |} ] init
  = (Return false, reselect_after_press) /\
  window (snd (run_iteration
                 {| read_key := None; clock_at_press := 0; clock_at_tick := 0 |}
                 reselect_after_press))
  = window reselect_after_press
    ++ [ScreenClear; ScreenWriteLine 0 Instructions; ScreenRefresh] /\
  sent_goals (snd (run_iteration
                     {| read_key := None; clock_at_press := 0; clock_at_tick := 0 |}
                     reselect_after_press)) = [].
Proof. repeat split. Qed.

(** ** C4: the debounce boundary *)

Lemma selected_position_group s :
  wf s -> group_selected (_selected_joint s) = true ->
  exists p, selected_position s = Some p.
Proof.
  intros Hwf [_ Hnone]%andb_true_iff. unfold selected_position.
  destruct (selection_cases _ (wf_selection _ Hwf))
    as [Hsel|[(i & Hsel & Hi)|[Hsel|Hsel]]].
  - rewrite Hsel in Hnone. discriminate.
  - destruct (arm_index_in_bounds s i Hwf Hsel) as (_ & Hidx & p & Hp).
    rewrite Hsel, Hidx. eauto.
  - rewrite Hsel. cbn. eauto.
  - rewrite Hsel. cbn. eauto.
Qed.

Lemma selected_position_ext s s' :
  _selected_joint s' = _selected_joint s ->
  position_state s' = position_state s ->
  selected_position s' = selected_position s.
Proof.
  unfold position_state, selected_position. intros -> [= -> -> ->]. reflexivity.
Qed.

Lemma pressed_keys_single now k press_time :
  pressed_keys now [(k, press_time)] =
  if now - press_time <? pressed_duration_ns then [k] else [].
Proof. reflexivity. Qed.

(** C4: a movement key [k] with delta [d] is pressed at clock reading [T]
    while a joint group is selected, and the next tick comes at [T + delta]
    (nanoseconds).  Both calls return and the group stays selected.  The tick
    adds to the selected position the deltas of the keys it finds inside the
    window, each once, and [k] is among them if and only if
    [delta < 400000000], that is 0.4 s.  When [k] is the only pending press:
    for [delta < 0.4 s] the selected position becomes [p + d], and for
    [delta >= 0.4 s] the tick changes nothing. *)
Theorem press_applied_iff_within_window s k d T delta :
  wf s ->
  group_selected (_selected_joint s) = true ->
  dict_get movement_bindings k = Some d ->
  exists s1 s2 p,
    _key_pressed k T s = (Return tt, s1) /\
    _set_velocity (T + delta) s1 = (Return tt, s2) /\
    _selected_joint s1 = _selected_joint s /\
    _selected_joint s2 = _selected_joint s /\
    selected_position s = Some p /\
    NoDup (pressed_keys (T + delta) (_last_pressed s1)) /\
    (In k (pressed_keys (T + delta) (_last_pressed s1)) <-> delta < 400000000) /\
    selected_position s2 =
      Some (add_deltas p (pressed_keys (T + delta) (_last_pressed s1))) /\
    (_last_pressed s = [] -> delta < 400000000 ->
     selected_position s2 = Some (p + d)%float) /\
    (_last_pressed s = [] -> 400000000 <= delta ->
     s2 = s1 /\ position_state s2 = position_state s).
Proof.
  intros Hwf Hgroup Hd.
  destruct (_key_pressed_movement s k d T Hwf Hgroup Hd)
    as (s1 & Hpress & Hpending & Hsel1 & Hpos1 & _).
  assert (wf s1) as Hwf1.
  { pose proof (_key_pressed_preserves_wf k T s Hwf) as H.
    rewrite Hpress in H. exact H. }
  destruct (_set_velocity_summary (T + delta) s1 Hwf1)
    as (s2 & Htick & _ & _ & Hpos2 & Hsame).
  destruct (selected_position_group s Hwf Hgroup) as [p Hp].
  rewrite (selected_position_ext s s1 Hsel1 Hpos1), Hp in Hpos2.
  pose proof (_set_velocity_preserves_frame s1 (T + delta) s1 (tick_frame_refl s1))
    as (Hsel2 & _).
  rewrite Htick in Hsel2. cbn [snd] in Hsel2.
  exists s1, s2, p.
  split; [exact Hpress|]. split; [exact Htick|]. split; [exact Hsel1|].
  split; [congruence|]. split; [exact Hp|].
  split; [apply pressed_keys_NoDup, (wf_unique _ Hwf1)|].
  split.
  { rewrite Hpending, (pressed_keys_set _ _ _ _ (wf_unique _ Hwf)).
    unfold pressed_duration_ns. lia. }
  split; [exact Hpos2|].
  split; intros Hempty Hdelta.
  - rewrite Hpos2, Hpending, Hempty. cbn [dict_set].
    rewrite pressed_keys_single.
    destruct (Z.ltb_spec (T + delta - T) pressed_duration_ns) as [_|Hge];
      [|unfold pressed_duration_ns in Hge; lia].
    rewrite (add_deltas_cons p k d [] Hd). reflexivity.
  - assert (pressed_keys (T + delta) (_last_pressed s1) = []) as Hnone.
    { rewrite Hpending, Hempty. cbn [dict_set].
      rewrite pressed_keys_single.
      destruct (Z.ltb_spec (T + delta - T) pressed_duration_ns) as [Hlt|_];
        [unfold pressed_duration_ns in Hlt; lia | reflexivity]. }
    rewrite (Hsame Hnone). split; [reflexivity | exact Hpos1].
Qed.

Lemma press_applied_iff_within_window_witness :
  exists s1 s2 p,
    _key_pressed (ord "d") 1000 (perform (KeyPressed (ord "3") 0) init)
      = (Return tt, s1) /\
    _set_velocity (1000 + 100000000) s1 = (Return tt, s2) /\
    _selected_joint s1 = PyInt 2 /\
    _selected_joint s2 = PyInt 2 /\
    selected_position (perform (KeyPressed (ord "3") 0) init) = Some p /\
    NoDup (pressed_keys (1000 + 100000000) (_last_pressed s1)) /\
    (In (ord "d") (pressed_keys (1000 + 100000000) (_last_pressed s1))
     <-> 100000000 < 400000000) /\
    selected_position s2 =
      Some (add_deltas p (pressed_keys (1000 + 100000000) (_last_pressed s1))) /\
    (_last_pressed (perform (KeyPressed (ord "3") 0) init) = [] ->
     100000000 < 400000000 ->
     selected_position s2 = Some (p + 0.01)%float) /\
    (_last_pressed (perform (KeyPressed (ord "3") 0) init) = [] ->
     400000000 <= 100000000 ->
     s2 = s1 /\
     position_state s2 = position_state (perform (KeyPressed (ord "3") 0) init)).
Proof.
  apply (press_applied_iff_within_window
           (perform (KeyPressed (ord "3") 0) init) (ord "d") 0.01%float
           1000 100000000).
  - split; reflexivity.
  - reflexivity.
  - reflexivity.
Defined.

(** ** C5: the goal that is dispatched *)

(** *** Every goal ever sent

    The goals in the trace of a node that method calls produced from the
    initial one all have one of three shapes. *)

Lemma _publish_goal_shape s :
  wf s ->
  Forall goal_shape (sent_goals s) ->
  Forall goal_shape (sent_goals (snd (_publish s))).
Proof.
  intros Hwf Hgoals.
  assert (forall submission,
            goal_shape submission ->
            Forall goal_shape (sent_goals s ++ [submission])) as Hadd.
  { intros submission Hshape. apply Forall_app. split; [exact Hgoals|].
    constructor; [exact Hshape | constructor]. }
  unfold _publish, interface_clear, interface_refresh, write_line,
    _send_goal_arm, _send_goal_torso, _send_goal_gripper, send_goal_async.
  destruct (selection_cases _ (wf_selection _ Hwf))
    as [Hsel|[(i & Hsel & Hi)|[Hsel|Hsel]]];
    unfold_M; cbn; rewrite Hsel; cbn.
  - exact Hgoals.
  - apply Hadd. eexists. split; [reflexivity|].
    split; [reflexivity | exact (wf_arm _ Hwf)].
  - apply Hadd. eexists. split; [reflexivity|]. split; reflexivity.
  - apply Hadd. eexists. split; [reflexivity|]. split; [reflexivity|].
    eexists. reflexivity.
Qed.

Lemma preserves_goal_shape {A} (m : M A) :
  preserves wf m ->
  (forall s, wf s -> Forall goal_shape (sent_goals s) ->
             Forall goal_shape (sent_goals (snd (m s)))) ->
  preserves (fun s => wf s /\ Forall goal_shape (sent_goals s)) m.
Proof. intros Hwf Hgoals s [Hs Hg]. split; [apply Hwf, Hs | apply Hgoals; assumption]. Qed.

Lemma run_iteration_goal_shape e :
  preserves (fun s => wf s /\ Forall goal_shape (sent_goals s)) (run_iteration e).
Proof.
  unfold run_iteration.
  apply preserves_bind; [|intros _].
  { apply preserves_goal_shape; [apply poll_key_preserves_wf|].
    intros s _ Hg. unfold poll_key. destruct (read_key e) as [keycode|]; [|exact Hg].
    destruct (_key_pressed_keeps keycode (clock_at_press e) s) as (_ & _ & ->).
    exact Hg. }
  apply preserves_bind; [|intros _].
  { apply preserves_goal_shape; [apply _set_velocity_preserves_wf|].
    intros s _ Hg. rewrite _set_velocity_sends_nothing. exact Hg. }
  apply preserves_get_bind. intros self _.
  destruct (_goal_sent self); [|apply preserves_ret].
  apply preserves_bind; [|intros _].
  - apply preserves_goal_shape; [apply _publish_preserves_wf|].
    apply _publish_goal_shape.
  - apply preserves_modify. intros s [Hs Hg]. split; [|exact Hg].
    clear Hg. revert s Hs. wf_fields.
Qed.

Lemma run_goal_shape env :
  preserves (fun s => wf s /\ Forall goal_shape (sent_goals s)) (run env).
Proof.
  induction env as [|e env IH]; cbn [run];
    apply preserves_get_bind; intros self _;
    destruct (negb (_running self)); try apply preserves_ret.
  apply preserves_bind; [apply run_iteration_goal_shape | intros _; exact IH].
Qed.

Lemma every_sent_goal_has_the_shape s :
  reachable s -> Forall goal_shape (sent_goals s).
Proof.
  intros Hreach.
  enough (wf s /\ Forall goal_shape (sent_goals s)) as [_ H] by exact H.
  induction Hreach as [|s c _ IH].
  - split; [apply wf_init | constructor].
  - destruct c; cbn [perform].
    + apply (preserves_goal_shape (_key_pressed keycode now));
        [apply _key_pressed_preserves_wf| |exact IH].
      intros s0 _ Hg.
      destruct (_key_pressed_keeps keycode now s0) as (_ & _ & ->). exact Hg.
    + apply (preserves_goal_shape (_set_velocity now));
        [apply _set_velocity_preserves_wf| |exact IH].
      intros s0 _ Hg. rewrite _set_velocity_sends_nothing. exact Hg.
    + apply (preserves_goal_shape _publish);
        [apply _publish_preserves_wf|apply _publish_goal_shape|exact IH].
    + apply run_goal_shape, IH.
    + apply (preserves_goal_shape (goal_response_callback goal_handle));
        [apply goal_response_callback_preserves_wf| |exact IH].
      intros s0 _ Hg. unfold goal_response_callback, logger_info.
      destruct (negb _); exact Hg.
    + apply (preserves_goal_shape (get_result_callback error_code));
        [apply get_result_callback_preserves_wf| |exact IH].
      intros s0 _ Hg. exact Hg.
Qed.

(** C5: in a node that method calls produced from the initial one, every
    goal sent so far has a single point with a time from start of 1 s, and
    names the seven arm joints with seven positions, or the torso joint with
    one, or the two finger joints with the same position twice.  There
    [_publish] returns and changes no position.  With an arm joint selected
    it submits, to the arm controller, one goal naming the seven arm joints
    in order, with a single point holding the current arm list (seven
    positions) and a time from start of 1 s; with the torso selected, one
    goal to the torso controller naming the torso joint, with the torso
    position; with the gripper selected, one goal to the gripper controller
    naming the two finger joints, both with the gripper position.  With no
    selection nothing is submitted. *)
Theorem dispatched_goal_follows_selection s :
  reachable s ->
  Forall goal_shape (sent_goals s) /\
  exists s',
    _publish s = (Return tt, s') /\
    position_state s' = position_state s /\
    (forall i, _selected_joint s = PyInt i ->
       length (_joint_positions_arm s) = 7%nat /\
       sent_goals s' = (sent_goals s ++
         [(arm_controller,
           {| joint_names := ["arm_1_joint"; "arm_2_joint"; "arm_3_joint";
                              "arm_4_joint"; "arm_5_joint"; "arm_6_joint";
                              "arm_7_joint"];
              points := [{| positions := _joint_positions_arm s;
                            time_from_start := {| sec := 1; nanosec := 0 |} |}]
           |})])) /\
    (_selected_joint s = PyStr "torso" ->
       sent_goals s' = (sent_goals s ++
         [(torso_controller,
           {| joint_names := ["torso_lift_joint"];
              points := [{| positions := [_joint_position_torso s];
                            time_from_start := {| sec := 1; nanosec := 0 |} |}]
           |})])) /\
    (_selected_joint s = PyStr "gripper" ->
       sent_goals s' = (sent_goals s ++
         [(gripper_controller,
           {| joint_names := ["gripper_right_finger_joint";
                              "gripper_left_finger_joint"];
              points := [{| positions := [_joint_position_gripper s;
                                          _joint_position_gripper s];
                            time_from_start := {| sec := 1; nanosec := 0 |} |}]
           |})])) /\
    (_selected_joint s = PyNone -> sent_goals s' = sent_goals s).
Proof.
  intros Hreach. split; [apply every_sent_goal_has_the_shape, Hreach|].
  pose proof (reachable_wf s Hreach) as Hwf.
  destruct (selection_cases _ (wf_selection _ Hwf))
    as [Hsel|[(i & Hsel & Hi)|[Hsel|Hsel]]];
    (eexists; split;
     [unfold _publish, interface_clear, interface_refresh, write_line,
        _send_goal_arm, _send_goal_torso, _send_goal_gripper, send_goal_async;
      unfold_M; cbn; rewrite Hsel; reflexivity|]);
    (split; [reflexivity|]);
    rewrite Hsel; repeat split; try discriminate; try reflexivity.
  exact (wf_arm _ Hwf).
Qed.

Lemma dispatched_goal_follows_selection_witness :
  exists s',
    _publish (perform (KeyPressed (ord "9") 0) init) = (Return tt, s') /\
    sent_goals s' =
      [(gripper_controller,
        {| joint_names := ["gripper_right_finger_joint";
                           "gripper_left_finger_joint"];
           points := [{| positions := [0.0; 0.0]%float;
                         time_from_start := {| sec := 1; nanosec := 0 |} |}]
        |})].
Proof.
  destruct (dispatched_goal_follows_selection
              (perform (KeyPressed (ord "9") 0) init))
    as (_ & s' & Hpub & _ & _ & _ & Hgripper & _).
  - apply reachable_call, reachable_init.
  - exists s'. split; [exact Hpub|]. exact (Hgripper eq_refl).
Defined.

(** ** C6: digit keys *)

Lemma press_digit_keys keys :
  forall s,
    Forall (fun kt => dict_contains joint_bindings (fst kt) = true) keys ->
    exists s',
      press_keys keys s = (Return tt, s') /\
      position_state s' = position_state s /\
      _last_pressed s' = _last_pressed s.
Proof.
  unfold press_keys.
  induction keys as [|[k now] keys IH]; intros s Hkeys; cbn [for_in].
  - exists s. auto.
  - apply Forall_cons in Hkeys as [Hk Hkeys]. cbn [fst snd] in Hk |- *.
    apply dict_contains_get in Hk as [joint Hjoint].
    destruct (_key_pressed_digit s k joint now Hjoint)
      as (s1 & Hpress & _ & Hpos1 & Hpending1 & _).
    destruct (IH s1 Hkeys) as (s' & Hrest & Hpos & Hpending).
    exists s'. rewrite bind_eq, Hpress.
    split; [exact Hrest|]. split; congruence.
Qed.

Lemma press_keys_app keys keys' s s1 :
  press_keys keys s = (Return tt, s1) ->
  press_keys (keys ++ keys') s = press_keys keys' s1.
Proof.
  unfold press_keys. revert s.
  induction keys as [|kt keys IH]; intros s; cbn [for_in app].
  - intros [= ->]. reflexivity.
  - rewrite !bind_eq.
    destruct (_key_pressed (fst kt) (snd kt) s) as [[[]|exception] s0];
      [apply IH | discriminate].
Qed.

(** C6: the key handler is applied to a sequence of digit keys 1-9, of
    which [k] is the last.  It returns every time; afterwards the selection
    is the entry of [joint_bindings] for [k] (1-7: arm index 0-6, 8: torso,
    9: gripper), and the arm list, the torso and the gripper position are
    what they were before the sequence. *)
Theorem digit_keys_select_last s keys k now joint :
  Forall (fun kt => dict_contains joint_bindings (fst kt) = true) keys ->
  dict_get joint_bindings k = Some joint ->
  exists s',
    press_keys (keys ++ [(k, now)]) s = (Return tt, s') /\
    _selected_joint s' = joint /\
    position_state s' = position_state s.
Proof.
  intros Hkeys Hjoint.
  destruct (press_digit_keys keys s Hkeys) as (s1 & Hfirst & Hpos1 & _).
  destruct (_key_pressed_digit s1 k joint now Hjoint)
    as (s' & Hlast & Hsel & Hpos & _).
  exists s'. rewrite (press_keys_app keys [(k, now)] s s1 Hfirst).
  unfold press_keys. cbn [for_in fst snd]. rewrite bind_eq, Hlast.
  split; [reflexivity|]. split; congruence.
Qed.

Lemma digit_keys_select_last_witness :
  exists s',
    press_keys ([(ord "3", 0); (ord "9", 10)] ++ [(ord "8", 20)]) joint1_d_pressed
      = (Return tt, s') /\
    _selected_joint s' = PyStr "torso" /\
    position_state s' = position_state joint1_d_pressed.
Proof.
  apply (digit_keys_select_last joint1_d_pressed
           [(ord "3", 0); (ord "9", 10)] (ord "8") 20 (PyStr "torso")).
  - repeat constructor.
  - reflexivity.
Defined.


(** *** Digit keys read by the loop

    The same in [run]: with no press pending and the dirty flag clear, as in
    the initial node, iterations that read digit keys only select; their
    ticks, at whatever clock readings, find nothing to apply and nothing is
    published. *)

Lemma run_iteration_digit e k joint s :
  reads k e ->
  dict_get joint_bindings k = Some joint ->
  _goal_sent s = false ->
  _last_pressed s = [] ->
  exists s1,
    run_iteration e s = (Return tt, s1) /\
    _selected_joint s1 = joint /\
    position_state s1 = position_state s /\
    _last_pressed s1 = [] /\
    _running s1 = _running s /\
    _goal_sent s1 = false /\
    sent_goals s1 = sent_goals s.
Proof.
  unfold reads. intros Hread Hjoint Hflag Hpending.
  destruct (_key_pressed_digit s k joint (clock_at_press e) Hjoint)
    as (s1 & Hpress & Hsel & Hpos & Hpending1 & Hrun & Hflag1 & Hgoals).
  exists s1.
  assert (_set_velocity (clock_at_tick e) s1 = (Return tt, s1)) as Htick.
  { unfold _set_velocity. rewrite get_bind_eq, Hpending1, Hpending. reflexivity. }
  unfold run_iteration, poll_key.
  rewrite Hread, bind_eq, Hpress, bind_eq, Htick, get_bind_eq, Hflag1, Hflag.
  repeat split; congruence.
Qed.

Lemma run_digit_keys env :
  forall s,
    Forall (fun e => exists k, reads k e /\ dict_contains joint_bindings k = true) env ->
    _running s = true -> _goal_sent s = false -> _last_pressed s = [] ->
    exists s',
      run env s = (Return false, s') /\
      position_state s' = position_state s /\
      sent_goals s' = sent_goals s /\
      _running s' = true /\ _goal_sent s' = false /\ _last_pressed s' = [].
Proof.
  induction env as [|e env IH]; intros s Hdigits Hrun Hflag Hpending.
  - exists s. rewrite (run_nil s Hrun). auto 10.
  - apply Forall_cons in Hdigits as [(k & Hread & Hk) Hdigits].
    apply dict_contains_get in Hk as [joint Hjoint].
    destruct (run_iteration_digit e k joint s Hread Hjoint Hflag Hpending)
      as (s1 & Hiter & _ & Hpos1 & Hpending1 & Hrun1 & Hflag1 & Hgoals1).
    destruct (IH s1 Hdigits) as (s' & Hrest & Hpos & Hgoals & Hfinal);
      [congruence | assumption | assumption |].
    exists s'. rewrite (run_cons e env s Hrun), Hiter.
    split; [exact Hrest|]. split; [congruence|]. split; [congruence|]. exact Hfinal.
Qed.

Lemma run_digit_keys_select_last env e k joint :
  Forall (fun e => exists k, reads k e /\ dict_contains joint_bindings k = true) env ->
  reads k e ->
  dict_get joint_bindings k = Some joint ->
  exists s',
    run (env ++ [e]) init = (Return false, s') /\
    _selected_joint s' = joint /\
    position_state s' = position_state init /\
    sent_goals s' = [].
Proof.
  intros Hdigits Hread Hjoint.
  destruct (run_digit_keys env init Hdigits)
    as (s1 & Hfirst & Hpos1 & Hgoals1 & Hrun1 & Hflag1 & Hpending1);
    try reflexivity.
  destruct (run_iteration_digit e k joint s1 Hread Hjoint Hflag1 Hpending1)
    as (s' & Hiter & Hsel & Hpos & _ & Hrun & _ & Hgoals).
  exists s'. rewrite run_app, Hfirst, (run_cons e [] s1 Hrun1), Hiter.
  rewrite run_nil by congruence.
  split; [reflexivity|]. split; [exact Hsel|]. split; [congruence|].
  rewrite Hgoals, Hgoals1. reflexivity.
Qed.

(** ** C7: the quit key *)

Lemma run_false_running env :
  forall s s1, run env s = (Return false, s1) -> _running s1 = true.
Proof.
  induction env as [|e env IH]; intros s s1;
    (destruct (_running s) eqn:Hrun;
     [|rewrite run_stopped by exact Hrun; discriminate]).
  - rewrite run_nil by exact Hrun. intros [= <-]. exact Hrun.
  - rewrite run_cons by exact Hrun.
    destruct (run_iteration e s) as [[[]|exception] s0]; [apply IH | discriminate].
Qed.

(** C7: the loop has gone through the iterations [pre] and is still running,
    with the node [s1]; the next iteration reads [q].  Then [run] ends there
    with the interrupt, whatever iterations [post] would follow: [_running]
    is cleared, and neither the tick nor [_publish] of that iteration is
    executed, so that no goal is sent and no position changes, also when
    [_goal_sent] is set or a pending press is inside the window. *)
Theorem quit_stops_before_dispatch pre e post s s1 :
  run pre s = (Return false, s1) ->
  reads (ord "q") e ->
  exists s2,
    run (pre ++ e :: post) s = (Raise KeyboardInterrupt, s2) /\
    _running s2 = false /\
    sent_goals s2 = sent_goals s1 /\
    position_state s2 = position_state s1 /\
    s2 = set_sigint (S (sigint s1)) (set_running false s1).
Proof.
  intros Hpre Hquit. eexists.
  rewrite run_app, Hpre.
  rewrite run_cons by exact (run_false_running pre s s1 Hpre).
  rewrite (run_iteration_quit e s1 Hquit).
  repeat split.
Qed.

Lemma quit_stops_before_dispatch_witness :
  exists s2,
    run ([ {| read_key := Some (ord "1"); clock_at_press := 0; clock_at_tick := 0 |};
           {| read_key := Some (ord "d"); clock_at_press := 0;
              clock_at_tick := 400000000 |} ]
         ++ {| read_key := Some (ord "q"); clock_at_press := 0; clock_at_tick := 0 |}
         :: [ {| read_key := None; clock_at_press := 0; clock_at_tick := 0 |} ])
      init
      = (Raise KeyboardInterrupt, s2) /\
    _running s2 = false /\
    sent_goals s2 = [] /\
    position_state s2 = position_state init /\
    _last_pressed s2 = [(ord "d", 0)].
Proof.
  destruct (quit_stops_before_dispatch
              [ {| read_key := Some (ord "1"); clock_at_press := 0; clock_at_tick := 0 |};
                {| read_key := Some (ord "d"); clock_at_press := 0;
                   clock_at_tick := 400000000 |} ]
              {| read_key := Some (ord "q"); clock_at_press := 0; clock_at_tick := 0 |}
              [ {| read_key := None; clock_at_press := 0; clock_at_tick := 0 |} ]
              init joint1_d_pressed)
    as (s2 & Hrun & Hstopped & Hgoals & Hpos & ->).
  - reflexivity.
  - reflexivity.
  - eexists. split; [exact Hrun|]. repeat split.
Defined.

(** ** C8: a rejected goal *)

(** C8: when the goal handle reports rejection, the response callback
    returns after writing the one log line 'Goal rejected'.  The node is
    otherwise the same: no result is requested, no goal is submitted, and
    positions, selection and pending presses are untouched. *)
Theorem rejected_goal_is_only_logged goal_handle s :
  accepted goal_handle = false ->
  goal_response_callback goal_handle s =
    (Return tt, set_logger (logger s ++ [LogGoalRejected]) s) /\
  let s' := snd (goal_response_callback goal_handle s) in
  result_requests s' = result_requests s /\
  _get_result_future s' = _get_result_future s /\
  sent_goals s' = sent_goals s /\
  position_state s' = position_state s /\
  _selected_joint s' = _selected_joint s /\
  _last_pressed s' = _last_pressed s.
Proof.
  intros Hrejected. unfold goal_response_callback. rewrite Hrejected.
  cbn. repeat split.
Qed.

Lemma rejected_goal_is_only_logged_witness :
  goal_response_callback {| goal_id := 0; accepted := false |} joint1_d_pressed =
    (Return tt,
     set_logger (logger joint1_d_pressed ++ [LogGoalRejected]) joint1_d_pressed).
Proof.
  apply (rejected_goal_is_only_logged
           {| goal_id := 0; accepted := false |} joint1_d_pressed).
  reflexivity.
Defined.

(** ** C9: the selected index is in bounds *)

(** C9: in every node that method calls can produce from the initial one,
    the arm list has seven elements and a selection that is an integer is one
    of 0..6, so that it designates an element of the list.  Hence no indexed
    access fails there: a tick returns, [_publish] returns, and the key
    handler returns or, on [q], raises the interrupt. *)
Theorem selected_index_in_bounds s :
  reachable s ->
  length (_joint_positions_arm s) = 7%nat /\
  (forall i, _selected_joint s = PyInt i ->
     0 <= i <= 6 /\
     py_index (length (_joint_positions_arm s)) i = Some (Z.to_nat i) /\
     exists p, _joint_positions_arm s !! Z.to_nat i = Some p) /\
  (forall now, fst (_set_velocity now s) = Return tt) /\
  (forall keycode now,
     fst (_key_pressed keycode now s) = Return tt \/
     keycode = ord "q" /\
     fst (_key_pressed keycode now s) = Raise KeyboardInterrupt) /\
  fst (_publish s) = Return tt.
Proof.
  intros Hwf%reachable_wf.
  split; [exact (wf_arm _ Hwf)|].
  split; [intros i; apply arm_index_in_bounds, Hwf|].
  split.
  { intros now.
    destruct (_set_velocity_summary now s Hwf) as (s' & -> & _). reflexivity. }
  split; [intros keycode now; apply _key_pressed_outcome, Hwf|].
  apply _publish_returns.
Qed.

Lemma selected_index_in_bounds_witness :
  length (_joint_positions_arm joint1_d_pressed) = 7%nat /\
  (forall i, _selected_joint joint1_d_pressed = PyInt i -> 0 <= i <= 6) /\
  (forall now, fst (_set_velocity now joint1_d_pressed) = Return tt).
Proof.
  destruct (selected_index_in_bounds joint1_d_pressed)
    as (Hlen & Hidx & Htick & _).
  - unfold joint1_d_pressed. do 2 apply reachable_call. apply reachable_init.
  - split; [exact Hlen|]. split; [|exact Htick].
    intros i Hi. apply (Hidx i Hi).
Defined.

(** ** C10: what a tick may change *)

(** C10: whatever the node and the clock reading, and whether the tick
    returns or raises, it leaves the selection as it was, and of the
    positions it changes at most the one selected: with arm index [i]
    selected the torso, the gripper and every arm element other than the one
    [i] designates are unchanged (and the list keeps its length); with the
    torso selected the arm list and the gripper are unchanged; with the
    gripper selected the arm list and the torso are unchanged; otherwise no
    position changes. *)
Theorem tick_changes_selected_position_only now s :
  tick_frame s (snd (_set_velocity now s)).
Proof. apply _set_velocity_preserves_frame, tick_frame_refl. Qed.


(** * Further properties of the program *)

(** ** What a key may change *)

Lemma dict_contains_false {V} (d : dict V) k :
  dict_contains d k = false -> dict_get d k = None.
Proof. unfold dict_contains. destruct (dict_get d k); [discriminate | reflexivity]. Qed.

(** The key handler keeps a property that the assignments of the branch
    taken for [keycode] cannot break. *)
Lemma _key_pressed_preserves_by_key (P : ArmTeleop -> Prop) keycode now :
  ((keycode =? ord "q") = true ->
   (forall s v, P s -> P (set_running v s)) /\
   (forall s v, P s -> P (set_sigint v s))) ->
  (dict_contains joint_bindings keycode = true \/ (keycode =? ord "r") = true ->
   forall s v, P s -> P (set_selected_joint v s)) ->
  (dict_contains movement_bindings keycode = true ->
   forall s v, P s -> P (set_last_pressed v s)) ->
  (forall s v, P s -> P (set_window v s)) ->
  preserves P (_key_pressed keycode now).
Proof.
  intros Hquit Hselect Hmove Hwindow.
  unfold _key_pressed. apply preserves_get_bind. intros self _.
  destruct (keycode =? ord "q").
  { destruct (Hquit eq_refl) as [Hrun Hsig]. walk_method. }
  unfold dict_contains in Hselect, Hmove.
  destruct (dict_get joint_bindings keycode) as [joint|].
  { pose proof (Hselect (or_introl eq_refl)) as Hsel. walk_method. }
  unfold dict_contains.
  destruct (dict_get movement_bindings keycode) as [d|]; cbn [andb].
  - pose proof (Hmove eq_refl) as Hpending.
    destruct (negb _); [walk_method|].
    destruct (keycode =? ord "r"); [|walk_method].
    pose proof (Hselect (or_intror eq_refl)) as Hsel. walk_method.
  - destruct (keycode =? ord "r"); [|walk_method].
    pose proof (Hselect (or_intror eq_refl)) as Hsel. walk_method.
Qed.

(** X1: whatever the key and the node, and whether the handler returns or
    raises, [_key_pressed] changes no position, does not touch the dirty flag
    and sends no goal; it answers no callback either (the logger and the
    result requests stay as they are). *)
Theorem key_handler_moves_nothing keycode now s :
  position_state (snd (_key_pressed keycode now s)) = position_state s /\
  _goal_sent (snd (_key_pressed keycode now s)) = _goal_sent s /\
  sent_goals (snd (_key_pressed keycode now s)) = sent_goals s /\
  logger (snd (_key_pressed keycode now s)) = logger s /\
  result_requests (snd (_key_pressed keycode now s)) = result_requests s.
Proof.
  apply (_key_pressed_preserves_by_key
           (fun s' => position_state s' = position_state s /\
                      _goal_sent s' = _goal_sent s /\
                      sent_goals s' = sent_goals s /\
                      logger s' = logger s /\
                      result_requests s' = result_requests s));
    auto 10.
Qed.

(** X2: each kind of key reaches its own attribute only.  A key other than
    the digits 1-9 and [r] leaves the selection as it is; a key other than
    the six movement keys leaves the pending presses as they are; a key other
    than [q] leaves the run flag set as it is and sends no interrupt. *)
Theorem key_classes_are_separate keycode now s :
  (dict_contains joint_bindings keycode = false ->
   (keycode =? ord "r") = false ->
   _selected_joint (snd (_key_pressed keycode now s)) = _selected_joint s) /\
  (dict_contains movement_bindings keycode = false ->
   _last_pressed (snd (_key_pressed keycode now s)) = _last_pressed s) /\
  ((keycode =? ord "q") = false ->
   _running (snd (_key_pressed keycode now s)) = _running s /\
   sigint (snd (_key_pressed keycode now s)) = sigint s).
Proof.
  split; [|split].
  - intros Hdigit Hr.
    apply (_key_pressed_preserves_by_key
             (fun s' => _selected_joint s' = _selected_joint s)); auto.
    intros [H|H]; congruence.
  - intros Hmove.
    apply (_key_pressed_preserves_by_key
             (fun s' => _last_pressed s' = _last_pressed s)); auto.
    congruence.
  - intros Hq.
    apply (_key_pressed_preserves_by_key
             (fun s' => _running s' = _running s /\ sigint s' = sigint s)); auto.
    congruence.
Qed.

(** X3: a key that is bound to nothing (not [q], not a digit 1-9, not a
    movement key, not [r]) is ignored: the handler returns and the node is
    exactly what it was, the window included. *)
Theorem unbound_key_is_ignored keycode now s :
  key_bound keycode = false ->
  _key_pressed keycode now s = (Return tt, s).
Proof.
  unfold key_bound. intros H.
  apply orb_false_iff in H as [H Hr].
  apply orb_false_iff in H as [H Hmove].
  apply orb_false_iff in H as [Hq Hjoint].
  unfold _key_pressed.
  rewrite get_bind_eq, Hq, (dict_contains_false _ _ Hjoint), Hmove, Hr.
  reflexivity.
Qed.

Lemma unbound_key_is_ignored_witness :
  _key_pressed (ord "x") 7 joint1_d_pressed = (Return tt, joint1_d_pressed).
Proof. apply (unbound_key_is_ignored (ord "x") 7 joint1_d_pressed). reflexivity. Defined.

(** ** Pending presses *)

Lemma dict_contains_elem_of {V} (d : dict V) k :
  dict_contains d k = true <-> k ∈ map fst d.
Proof.
  unfold dict_contains.
  induction d as [|[k0 v0] d IH]; cbn [dict_get map fst].
  - split; [discriminate | intros H; inversion H].
  - destruct (Z.eqb_spec k0 k) as [->|Hne].
    + split; [intros _; left | reflexivity].
    + rewrite IH. split; [right; assumption|].
      intros H. inversion H; [congruence | assumption].
Qed.

Lemma unique_keys_NoDup {V} (d : dict V) :
  unique_keys d = true -> NoDup (map fst d).
Proof.
  induction d as [|[k0 v0] d IH]; cbn [unique_keys map fst].
  - intros _. constructor.
  - intros [Hk0 Hd]%andb_true_iff. constructor; [|auto].
    intros Hin%dict_contains_elem_of. rewrite Hin in Hk0. discriminate.
Qed.

Lemma movement_keys_only_elem_of d k :
  movement_keys_only d = true ->
  k ∈ map fst d -> k ∈ map fst movement_bindings.
Proof.
  unfold movement_keys_only.
  induction d as [|[k0 t0] d IH]; cbn [forallb map fst].
  - intros _ H. inversion H.
  - intros [Hk0 Hd]%andb_true_iff H.
    inversion H; subst; [apply dict_contains_elem_of, Hk0 | auto].
Qed.

(** X5: in every node that method calls can produce from the initial one,
    [_last_pressed] holds movement keys only, each at most once: it never
    has more than six entries, however many keys are pressed and however
    late the ticks come. *)
Theorem pending_presses_are_bounded s :
  reachable s ->
  (length (_last_pressed s) <= 6)%nat /\
  NoDup (map fst (_last_pressed s)) /\
  (forall k, k ∈ map fst (_last_pressed s) ->
             dict_contains movement_bindings k = true).
Proof.
  intros [_ _ Hmove Hunique]%reachable_wf.
  pose proof (unique_keys_NoDup _ Hunique) as Hnodup.
  split; [|split; [exact Hnodup|]].
  - rewrite <- (length_map fst (_last_pressed s)).
    change 6%nat with (length (map fst movement_bindings)).
    apply submseteq_length, NoDup_submseteq; [exact Hnodup|].
    intros k. apply movement_keys_only_elem_of, Hmove.
  - intros k Hk. apply dict_contains_elem_of.
    exact (movement_keys_only_elem_of _ k Hmove Hk).
Qed.

Lemma pending_presses_are_bounded_witness :
  (length (_last_pressed joint1_d_pressed) <= 6)%nat.
Proof.
  apply (pending_presses_are_bounded joint1_d_pressed).
  unfold joint1_d_pressed. do 2 apply reachable_call. apply reachable_init.
Defined.

Lemma press_burst k d ts :
  dict_get movement_bindings k = Some d ->
  forall t s,
    wf s ->
    group_selected (_selected_joint s) = true ->
    (_last_pressed s = [] \/ exists t0, _last_pressed s = [(k, t0)]) ->
    exists s' tl,
      press_keys (map (fun t' => (k, t')) (t :: ts)) s = (Return tt, s') /\
      last (t :: ts) = Some tl /\
      _last_pressed s' = [(k, tl)] /\
      position_state s' = position_state s /\
      _selected_joint s' = _selected_joint s /\
      wf s'.
Proof.
  intros Hd.
  induction ts as [|t' ts IH]; intros t s Hwf Hgroup Hpending;
    destruct (_key_pressed_movement s k d t Hwf Hgroup Hd)
      as (s1 & Hpress & Hpending1 & Hsel1 & Hpos1 & _);
    (assert (wf s1) as Hwf1
       by (pose proof (_key_pressed_preserves_wf k t s Hwf) as H;
           rewrite Hpress in H; exact H));
    (assert (_last_pressed s1 = [(k, t)]) as Hone
       by (rewrite Hpending1;
           destruct Hpending as [->|[t0 ->]]; cbn [dict_set];
           rewrite ?Z.eqb_refl; reflexivity)).
  - exists s1, t. unfold press_keys. cbn [map for_in fst snd].
    rewrite bind_eq, Hpress. auto 10.
  - destruct (IH t' s1 Hwf1) as (s' & tl & Hrest & Hlast & Hfinal & Hpos & Hsel & Hwf');
      [congruence | right; eauto |].
    exists s', tl. unfold press_keys in Hrest |- *.
    cbn [map for_in fst snd] in Hrest |- *. rewrite bind_eq, Hpress.
    split; [exact Hrest|]. split; [exact Hlast|]. split; [exact Hfinal|].
    split; [congruence|]. split; [congruence | exact Hwf'].
Qed.

(** X4: a burst of presses of one movement key between two ticks counts as
    one press, made at the time of the last.  With a group selected and
    nothing pending, the key [k] is pressed at the clock readings [t :: ts];
    the handler returns each time and one entry is pending, stamped with the
    last reading [tl].  The tick at [now] then adds the delta of [k] once if
    [now - tl] is under 0.4 s, and otherwise does nothing, whenever the
    earlier presses were made. *)
Theorem key_repeat_counts_once s k d p t ts now :
  wf s ->
  group_selected (_selected_joint s) = true ->
  dict_get movement_bindings k = Some d ->
  _last_pressed s = [] ->
  selected_position s = Some p ->
  exists s1 s2 tl,
    press_keys (map (fun t' => (k, t')) (t :: ts)) s = (Return tt, s1) /\
    last (t :: ts) = Some tl /\
    _last_pressed s1 = [(k, tl)] /\
    _set_velocity now s1 = (Return tt, s2) /\
    (now - tl < 400000000 ->
     selected_position s2 = Some (p + d)%float /\ _last_pressed s2 = []) /\
    (400000000 <= now - tl -> s2 = s1).
Proof.
  intros Hwf Hgroup Hd Hpending Hp.
  destruct (press_burst k d ts Hd t s Hwf Hgroup (or_introl Hpending))
    as (s1 & tl & Hburst & Hlast & Hone & Hpos1 & Hsel1 & Hwf1).
  destruct (_set_velocity_summary now s1 Hwf1)
    as (s2 & Htick & Hpending2 & _ & Hpos2 & Hsame).
  rewrite (selected_position_ext s s1 Hsel1 Hpos1), Hp in Hpos2.
  rewrite Hone, pressed_keys_single in Hpending2, Hpos2, Hsame.
  exists s1, s2, tl.
  split; [exact Hburst|]. split; [exact Hlast|]. split; [exact Hone|].
  split; [exact Htick|].
  unfold pressed_duration_ns in Hpending2, Hpos2, Hsame.
  destruct (Z.ltb_spec (now - tl) 400000000) as [Hlt|Hge].
  - split; [intros _|lia].
    rewrite Hpos2, (add_deltas_cons p k d [] Hd). split; [reflexivity | exact Hpending2].
  - split; [lia|]. intros _. apply Hsame. reflexivity.
Qed.

Lemma key_repeat_counts_once_witness :
  exists s1 s2 tl,
    press_keys (map (fun t' => (ord "d", t')) (0 :: [30000000; 60000000]))
      (perform (KeyPressed (ord "8") 0) init) = (Return tt, s1) /\
    last (0 :: [30000000; 60000000]) = Some tl /\
    _last_pressed s1 = [(ord "d", tl)] /\
    _set_velocity 100000000 s1 = (Return tt, s2) /\
    (100000000 - tl < 400000000 ->
     selected_position s2 = Some (0.15 + 0.01)%float /\ _last_pressed s2 = []) /\
    (400000000 <= 100000000 - tl -> s2 = s1).
Proof.
  apply (key_repeat_counts_once
           (perform (KeyPressed (ord "8") 0) init) (ord "d") 0.01%float
           0.15%float 0 [30000000; 60000000] 100000000).
  - split; reflexivity.
  - reflexivity.
  - reflexivity.
  - reflexivity.
  - reflexivity.
Defined.

(** X6: a tick leaves nothing for the next one.  After a tick at [now1] on a
    well-formed node, a tick at any [now2 >= now1] returns without changing
    anything: the first tick has either applied and cleared the presses, or
    found them all too old, and older they stay. *)
Theorem second_tick_is_idle now1 now2 s :
  wf s ->
  now1 <= now2 ->
  _set_velocity now2 (snd (_set_velocity now1 s)) =
    (Return tt, snd (_set_velocity now1 s)).
Proof.
  intros Hwf Hlater.
  destruct (_set_velocity_summary now1 s Hwf)
    as (s1 & Htick1 & Hpending1 & _ & _ & _).
  rewrite Htick1. cbn [snd].
  assert (wf s1) as Hwf1.
  { pose proof (_set_velocity_preserves_wf now1 s Hwf) as H.
    rewrite Htick1 in H. exact H. }
  assert (stale now1 (_last_pressed s1) = true) as Hstale.
  { rewrite Hpending1.
    destruct (pressed_keys now1 (_last_pressed s)) eqn:Hkeys; [|reflexivity].
    apply stale_pressed_keys, Hkeys. }
  destruct (_set_velocity_summary now2 s1 Hwf1) as (s2 & -> & _ & _ & _ & Hsame).
  rewrite Hsame; [reflexivity|].
  apply stale_pressed_keys, (stale_later now1 now2 _ Hlater Hstale).
Qed.

Lemma second_tick_is_idle_witness :
  _set_velocity 500000000 (snd (_set_velocity 400000000 joint1_d_pressed)) =
    (Return tt, snd (_set_velocity 400000000 joint1_d_pressed)).
Proof.
  apply (second_tick_is_idle 400000000 500000000 joint1_d_pressed).
  - split; reflexivity.
  - lia.
Defined.

(** ** Callbacks and publishing *)

(** X7: the callbacks of the action client only log and ask for results.
    Whatever callbacks are delivered, in whatever order and on whatever node,
    each returns; one line is logged per callback; a result is requested for
    the handles that report acceptance, in their order, and for no other;
    positions, selection, pending presses, the two flags, the goals sent and
    the window are untouched. *)
Theorem callbacks_only_log cbs :
  forall s,
  exists s',
    deliver cbs s = (Return tt, s') /\
    length (logger s') = (length (logger s) + length cbs)%nat /\
    result_requests s' = result_requests s ++ accepted_ids cbs /\
    position_state s' = position_state s /\
    _selected_joint s' = _selected_joint s /\
    _last_pressed s' = _last_pressed s /\
    _running s' = _running s /\
    _goal_sent s' = _goal_sent s /\
    sent_goals s' = sent_goals s /\
    window s' = window s.
Proof.
  unfold deliver.
  induction cbs as [|cb cbs IH]; intros s; cbn [for_in accepted_ids].
  - exists s. rewrite app_nil_r, Nat.add_0_r. auto 10.
  - assert (exists s1,
              deliver_one cb s = (Return tt, s1) /\
              length (logger s1) = S (length (logger s)) /\
              result_requests s1 =
                result_requests s ++ accepted_ids [cb] /\
              position_state s1 = position_state s /\
              _selected_joint s1 = _selected_joint s /\
              _last_pressed s1 = _last_pressed s /\
              _running s1 = _running s /\
              _goal_sent s1 = _goal_sent s /\
              sent_goals s1 = sent_goals s /\
              window s1 = window s) as (s1 & Hone & Hlog1 & Hreq1 & Hrest1).
    { destruct cb as [h|code]; cbn [deliver_one accepted_ids].
      - unfold goal_response_callback, logger_info.
        destruct (accepted h); cbn [negb]; eexists; (split; [reflexivity|]);
          unfold_M; cbn; rewrite ?app_nil_r, length_app, Nat.add_1_r; auto 10.
      - eexists. split; [reflexivity|].
        cbn. rewrite app_nil_r, length_app, Nat.add_1_r. auto 10. }
    destruct (IH s1) as (s' & Hrest & Hlog & Hreq & Hkeep).
    exists s'. rewrite bind_eq, Hone.
    split; [exact Hrest|]. split; [rewrite Hlog, Hlog1; cbn; lia|].
    split.
    { rewrite Hreq, Hreq1, <- app_assoc. f_equal.
      destruct cb as [h|code]; cbn [accepted_ids]; [destruct (accepted h)|];
        reflexivity. }
    destruct Hrest1 as (? & ? & ? & ? & ? & ? & ?).
    destruct Hkeep as (? & ? & ? & ? & ? & ? & ?).
    repeat split; congruence.
Qed.


(** ** The loop, iteration by iteration *)



Lemma poll_key_keeps e s :
  position_state (snd (poll_key e s)) = position_state s /\
  _goal_sent (snd (poll_key e s)) = _goal_sent s /\
  sent_goals (snd (poll_key e s)) = sent_goals s.
Proof.
  unfold poll_key. destruct (read_key e) as [keycode|]; [|auto].
  apply _key_pressed_keeps.
Qed.

















(** ** The loop between two ticks *)

Lemma run_last pre e s0 s :
  wf s0 ->
  run (pre ++ [e]) s0 = (Return false, s) ->
  exists s1,
    run pre s0 = (Return false, s1) /\ wf s1 /\ _running s1 = true /\
    run_iteration e s1 = (Return tt, s) /\ _running s = true.
Proof.
  intros Hwf0. rewrite run_app.
  pose proof (run_preserves_wf pre s0 Hwf0) as Hwf1.
  destruct (run pre s0) as [[[|]|exception] s1] eqn:Hpre; try discriminate.
  cbn [snd] in Hwf1.
  pose proof (run_false_running pre s0 s1 Hpre) as Hrun1.
  rewrite (run_cons e [] s1 Hrun1).
  destruct (run_iteration e s1) as [[[]|exception] s2] eqn:Hiter; [|discriminate].
  destruct (_running s2) eqn:Hrun2.
  - rewrite (run_nil s2 Hrun2). intros [= <-]. exists s1.
    split; [reflexivity|]. split; [exact Hwf1|]. split; [exact Hrun1|].
    split; [exact Hiter | exact Hrun2].
  - rewrite (run_stopped [] s2 Hrun2). discriminate.
Qed.

(** X11: between two iterations of [run] the node is settled.  From a
    well-formed node, once [run] has gone through the iterations
    [pre ++ [e]] and is still running, the node is well formed, the dirty
    flag is clear (a set flag is consumed by [_publish] in the iteration
    that set it), and no pending press is inside the debounce window at the
    clock reading of the tick of [e]. *)
Theorem node_is_settled_between_iterations pre e s0 s :
  wf s0 ->
  run (pre ++ [e]) s0 = (Return false, s) ->
  settled (clock_at_tick e) s /\ _running s = true.
Proof.
  intros Hwf0 Hrun.
  destruct (run_last pre e s0 s Hwf0 Hrun) as (s1 & _ & Hwf1 & _ & Hiter & Hrunning).
  split; [exact (run_iteration_settles e s1 s Hwf1 Hiter) | exact Hrunning].
Qed.

Lemma node_is_settled_between_iterations_witness :
  settled 400000000 joint1_d_pressed /\ _running joint1_d_pressed = true.
Proof.
  apply (node_is_settled_between_iterations
           [ {| read_key := Some (ord "1"); clock_at_press := 0; clock_at_tick := 0 |} ]
           {| read_key := Some (ord "d"); clock_at_press := 0;
              clock_at_tick := 400000000 |}
           init joint1_d_pressed).
  - split; reflexivity.
  - reflexivity.
Defined.

(** An iteration whose key handling records no press does nothing after the
    key handling, on a settled node whose clock has not stepped back. *)
Lemma stale_iteration last e s s1 :
  settled last s ->
  last <= clock_at_tick e ->
  poll_key e s = (Return tt, s1) ->
  _last_pressed s1 = _last_pressed s ->
  run_iteration e s = (Return tt, s1) /\
  _set_velocity (clock_at_tick e) s1 = (Return tt, s1) /\
  _goal_sent s1 = false.
Proof.
  intros [Hwf Hflag Hstale] Hlater Hpoll Hpending.
  pose proof (poll_key_preserves_wf e s Hwf) as Hwf1.
  destruct (poll_key_keeps e s) as (_ & Hflag1 & _).
  rewrite Hpoll in Hwf1, Hflag1. cbn [snd] in Hwf1, Hflag1.
  rewrite Hflag in Hflag1.
  assert (_set_velocity (clock_at_tick e) s1 = (Return tt, s1)) as Htick.
  { destruct (_set_velocity_summary (clock_at_tick e) s1 Hwf1)
      as (s2 & -> & _ & _ & _ & Hsame).
    rewrite Hsame; [reflexivity|].
    apply stale_pressed_keys. rewrite Hpending.
    exact (stale_later last _ _ Hlater Hstale). }
  split; [|split; [exact Htick | exact Hflag1]].
  unfold run_iteration.
  rewrite bind_eq, Hpoll, bind_eq, Htick, get_bind_eq, Hflag1. reflexivity.
Qed.

(** X12: inside the loop, with a clock that does not step back, a tick that
    finds no group selected does nothing.  On a settled node, if the key
    handling of the iteration returns with the selection [None] (no key, an
    unbound key, a movement key without selection, or [r]), then the tick
    changes nothing, the dirty flag stays clear, and the iteration ends in
    the node the key handling left: nothing is published. *)
Theorem unselected_iteration_stops_at_key_handling last e s s1 :
  settled last s ->
  last <= clock_at_tick e ->
  poll_key e s = (Return tt, s1) ->
  _selected_joint s1 = PyNone ->
  run_iteration e s = (Return tt, s1) /\
  _set_velocity (clock_at_tick e) s1 = (Return tt, s1) /\
  _goal_sent s1 = false /\
  position_state s1 = position_state s /\
  sent_goals s1 = sent_goals s.
Proof.
  intros Hsettled Hlater Hpoll Hsel.
  pose proof (poll_key_unselected e s s1 Hpoll Hsel) as Hpending.
  destruct (stale_iteration last e s s1 Hsettled Hlater Hpoll Hpending)
    as (Hiter & Htick & Hflag).
  destruct (poll_key_keeps e s) as (Hpos & _ & Hgoals).
  rewrite Hpoll in Hpos, Hgoals. auto 10.
Qed.

Lemma unselected_iteration_stops_at_key_handling_witness :
  run_iteration
    {| read_key := Some (ord "r"); clock_at_press := 400000000;
       clock_at_tick := 400000000 |} joint1_d_pressed
  = (Return tt, reselect_after_press) /\
  _set_velocity 400000000 reselect_after_press = (Return tt, reselect_after_press) /\
  _goal_sent reselect_after_press = false /\
  position_state reselect_after_press = position_state joint1_d_pressed /\
  sent_goals reselect_after_press = sent_goals joint1_d_pressed.
Proof.
  apply (unselected_iteration_stops_at_key_handling 400000000
           {| read_key := Some (ord "r"); clock_at_press := 400000000;
              clock_at_tick := 400000000 |}
           joint1_d_pressed reselect_after_press).
  - split; [split|..]; reflexivity.
  - cbn. lia.
  - reflexivity.
  - reflexivity.
Defined.

(** X13: an iteration in which no key is waiting ([getch] answers -1)
    changes nothing at all on a settled node whose clock has not stepped
    back: no position moves, nothing is drawn and no goal is sent, whatever
    is selected. *)
Theorem iteration_without_key_is_idle last clock_press clock_tick s :
  settled last s ->
  last <= clock_tick ->
  run_iteration (tick_input_of (-1) clock_press clock_tick) s = (Return tt, s).
Proof.
  intros Hsettled Hlater.
  apply (stale_iteration last (tick_input_of (-1) clock_press clock_tick) s s
           Hsettled Hlater); reflexivity.
Qed.

Lemma iteration_without_key_is_idle_witness :
  run_iteration (tick_input_of (-1) 0 900000000) joint1_d_pressed
  = (Return tt, joint1_d_pressed).
Proof.
  apply (iteration_without_key_is_idle 400000000 0 900000000 joint1_d_pressed).
  - split; [split|..]; reflexivity.
  - lia.
Defined.

(** ** A press, its tick and its goal *)





(** ** Digit keys in the loop *)

(** X15: digit keys read by the loop only select.  From a running node with
    the dirty flag clear and no press pending (the initial node is one), over
    iterations that each read a digit key 1-9, at whatever clock readings,
    [run] returns still running; the selection is the joint group of the
    last digit read, no position has changed and no goal has been sent. *)
Theorem digits_read_by_the_loop env e k joint s :
  Forall (fun e' => exists k', reads k' e' /\ dict_contains joint_bindings k' = true)
    env ->
  reads k e ->
  dict_get joint_bindings k = Some joint ->
  _running s = true ->
  _goal_sent s = false ->
  _last_pressed s = [] ->
  exists s',
    run (env ++ [e]) s = (Return false, s') /\
    _selected_joint s' = joint /\
    position_state s' = position_state s /\
    sent_goals s' = sent_goals s.
Proof.
  intros Hdigits Hread Hjoint Hrun Hflag Hpending.
  destruct (run_digit_keys env s Hdigits Hrun Hflag Hpending)
    as (s1 & Hfirst & Hpos1 & Hgoals1 & Hrun1 & Hflag1 & Hpending1).
  destruct (run_iteration_digit e k joint s1 Hread Hjoint Hflag1 Hpending1)
    as (s' & Hiter & Hsel & Hpos & _ & Hrun' & _ & Hgoals).
  exists s'. rewrite run_app, Hfirst, (run_cons e [] s1 Hrun1), Hiter.
  rewrite run_nil by congruence.
  split; [reflexivity|]. split; [exact Hsel|]. split; congruence.
Qed.

Lemma digits_read_by_the_loop_witness :
  exists s',
    run ([ {| read_key := Some (ord "4"); clock_at_press := 0; clock_at_tick := 5 |} ]
         ++ [ {| read_key := Some (ord "9"); clock_at_press := 7; clock_at_tick := 9 |} ])
      init = (Return false, s') /\
    _selected_joint s' = PyStr "gripper" /\
    position_state s' = position_state init /\
    sent_goals s' = sent_goals init.
Proof.
  apply (digits_read_by_the_loop
           [ {| read_key := Some (ord "4"); clock_at_press := 0; clock_at_tick := 5 |} ]
           {| read_key := Some (ord "9"); clock_at_press := 7; clock_at_tick := 9 |}
           (ord "9") (PyStr "gripper") init).
  - constructor; [|constructor]. exists (ord "4"). split; reflexivity.
  - reflexivity.
  - reflexivity.
  - reflexivity.
  - reflexivity.
  - reflexivity.
Defined.

(** ** The process *)


